(** * Filter-list commands and command-error dispatch of the moderation bot

    A shallow embedding of [bot/cogs/filter_lists.py] (the [FilterLists] cog:
    [_add_data], [_delete_data], [_list_all_data]) and of the command-error
    dispatcher exercised by [tests/bot/cogs/test_error_handler.py].

    Python values are modelled by a small JSON-like value type, dictionaries
    by finite maps with string keys, and the coroutines by a state-and-error
    monad over the bot's cache and the sequence of calls made to the outside
    world (REST client, invite validator, reactions, paginator). *)

From Stdlib Require Import Ascii.
From stdpp Require Import gmap strings list sorting pretty.

Open Scope string_scope.
Open Scope list_scope.

(** ** Python values and dictionaries *)

Module Py.

(** The JSON fragment of Python values that filter-list items are made of. *)
Inductive value : Type :=
| VNone
| VBool (b : bool)
| VInt (z : Z)
| VStr (s : string).

#[global] Instance value_eq_dec : EqDecision value.
Proof. solve_decision. Defined.

(** [bool(v)]: the test performed by [if v:] and [not v]. *)
Definition truthy (v : value) : bool :=
  match v with
  | VNone => false
  | VBool b => b
  | VInt z => negb (Z.eqb z 0)
  | VStr s => negb (String.eqb s "")
  end.

(** [str(v)], which is what an f-string placeholder [{v}] expands to. *)
Definition str (v : value) : string :=
  match v with
  | VNone => "None"
  | VBool true => "True"
  | VBool false => "False"
  | VInt z => pretty z
  | VStr s => s
  end.

(** [bool] is a subclass of [int]: [True == 1] and [False == 0]. *)
Definition num (v : value) : value :=
  match v with
  | VBool b => VInt (Z.b2z b)
  | _ => v
  end.

(** [v1 == v2]. *)
Definition eqb (v1 v2 : value) : bool := bool_decide (num v1 = num v2).

(** A [dict] with string keys. *)
Abbreviation dict := (gmap string value).

(** [d.get(k)]: the value under [k], or [None] when the key is absent. *)
Definition get (d : dict) (k : string) : value := default VNone (d !! k).

(** [d1 == d2] on dictionaries: same keys, equal values. *)
Definition dict_eqb (d1 d2 : dict) : bool :=
  bool_decide (num <$> d1 = num <$> d2).

(** [l.remove(x)]: drops the first element equal to [x]; [None] stands for
    the [ValueError] raised when there is no such element. *)
Fixpoint list_remove (x : dict) (l : list dict) : option (list dict) :=
  match l with
  | [] => None
  | y :: l' =>
      if dict_eqb y x then Some l'
      else option_map (cons y) (list_remove x l')
  end.

(** Optional string arguments ([Optional[str]]). *)
Definition of_option (o : option string) : value :=
  match o with
  | None => VNone
  | Some s => VStr s
  end.

(** String methods, on ASCII letters (list types are ASCII identifiers such
    as [GUILD_INVITE]); other bytes are kept as they are. *)
Definition is_upper (a : ascii) : bool :=
  ((65 <=? N_of_ascii a) && (N_of_ascii a <=? 90))%N.

Definition is_lower (a : ascii) : bool :=
  ((97 <=? N_of_ascii a) && (N_of_ascii a <=? 122))%N.

Definition to_lower (a : ascii) : ascii :=
  if is_upper a then ascii_of_N (N_of_ascii a + 32) else a.

Definition to_upper (a : ascii) : ascii :=
  if is_lower a then ascii_of_N (N_of_ascii a - 32) else a.

(** [s.lower()]. *)
Fixpoint lower (s : string) : string :=
  match s with
  | EmptyString => EmptyString
  | String a s' => String (to_lower a) (lower s')
  end.

(** [s.replace(old, new)] for one-character [old] and [new]. *)
Fixpoint replace (old new : ascii) (s : string) : string :=
  match s with
  | EmptyString => EmptyString
  | String a s' =>
      String (if Ascii.eqb a old then new else a) (replace old new s')
  end.

(** [s.title()]: a letter that follows a letter is lowercased, any other
    letter is uppercased. *)
Fixpoint title_from (previous_is_cased : bool) (s : string) : string :=
  match s with
  | EmptyString => EmptyString
  | String a s' =>
      if is_upper a || is_lower a then
        String (if previous_is_cased then to_lower a else to_upper a)
               (title_from true s')
      else String a (title_from false s')
  end.

Definition title (s : string) : string := title_from false s.

End Py.

(** ** Exceptions, results and the coroutine monad *)

Inductive exn : Type :=
| BadArgument (message : string)
| ResponseCodeError (status : Z)
| ValueError
| OtherError (name : string).

Inductive result (A : Type) : Type :=
| Ok (a : A)
| Raise (e : exn).

Arguments Ok {A} a.
Arguments Raise {A} e.

Module Coro.
Section Coro.
Context {St : Type}.

(** A coroutine body: it runs from a state, and either returns or raises,
    leaving a state behind in both cases. *)
Definition M (A : Type) : Type := St -> result A * St.

Definition ret {A} (a : A) : M A := fun st => (Ok a, st).

Definition raise {A} (e : exn) : M A := fun st => (Raise e, st).

Definition bind {A B} (m : M A) (k : A -> M B) : M B :=
  fun st =>
    match m st with
    | (Ok a, st') => k a st'
    | (Raise e, st') => (Raise e, st')
    end.

(** [try: m  except Exception as e: h e]. *)
Definition try_except {A} (m : M A) (h : exn -> M A) : M A :=
  fun st =>
    match m st with
    | (Ok a, st') => (Ok a, st')
    | (Raise e, st') => h e st'
    end.

Definition get_state : M St := fun st => (Ok st, st).

Definition modify (f : St -> St) : M unit := fun st => (Ok tt, f st).

End Coro.
End Coro.

Import Coro.

Declare Scope coro_scope.
Delimit Scope coro_scope with coro.
Notation "x <- m ;; k" := (bind m (fun x => k))
  (at level 100, m at next level, right associativity) : coro_scope.
Notation "m ;; k" := (bind m (fun _ => k))
  (at level 100, right associativity) : coro_scope.
Open Scope coro_scope.

(** ** The [FilterLists] cog *)

Module FilterLists.

Inductive Colour : Type := Colour_blue.

Record Embed : Type := mkEmbed {
  title : string;
  colour : Colour;
  description : option string
}.

(** The awaited calls a command makes, in the order they are made. *)
Inductive call : Type :=
| Convert (argument : string)
| ApiPost (url : string) (json : Py.dict)
| ApiDelete (url : string)
| AddReaction (emoji : string)
| Paginate (lines : list string) (embed : Embed) (max_lines : nat) (empty : bool)
| Send (embed : Embed).

(** Modelled from the spec: the declaration of the bot's [filter_list_cache]
    (in [bot/bot.py]) is not part of the sources at hand. It is the mapping
    from the key [type.allowed] to the ordered sequence of the entries of that
    list; a key that has no entries reads as the empty sequence. *)
Abbreviation cache := (gmap string (list Py.dict)).

Record state : Type := mkState {
  filter_list_cache : cache;
  calls : list call
}.

(** What lies outside the cog: the answers of the invite validator and of the
    REST client, [IDConverter._get_id_match] of the chat library (as the
    truth value of the match object), the bot's
    [insert_item_into_filter_list_cache], whose body is in [bot/bot.py], and
    the answers of the chat platform to a reaction, to a page display and to
    a message: each of these awaited calls returns or raises. *)
Record Env : Type := mkEnv {
  convert : string -> result Py.dict;
  post : string -> Py.dict -> result Py.dict;
  delete : string -> result unit;
  _get_id_match : string -> bool;
  insert_item_into_filter_list_cache : Py.dict -> cache -> cache;
  add_reaction_answer : string -> result unit;
  paginate_answer : list string -> Embed -> result unit;
  send_embed_answer : Embed -> result unit
}.

Section Cog.
Variable env : Env.

Definition record_call (c : call) (st : state) : state :=
  mkState (filter_list_cache st) (calls st ++ [c]).

(** An awaited call: it is recorded, and its answer (a return or a raised
    exception) comes from outside. *)
Definition await {A} (c : call) (answer : result A) : M A :=
  fun st => (answer, record_call c st).

(** [await ValidDiscordServerInvite().convert(ctx, argument)] *)
Definition validator_convert (argument : string) : M Py.dict :=
  await (Convert argument) (convert env argument).

(** [await self.bot.api_client.post(url, json=json)] *)
Definition api_client_post (url : string) (json : Py.dict) : M Py.dict :=
  await (ApiPost url json) (post env url json).

(** [await self.bot.api_client.delete(url)] *)
Definition api_client_delete (url : string) : M unit :=
  await (ApiDelete url) (delete env url).

(** [await ctx.message.add_reaction(emoji)] *)
Definition add_reaction (emoji : string) : M unit :=
  await (AddReaction emoji) (add_reaction_answer env emoji).

(** [await LinePaginator.paginate(lines, ctx, embed, max_lines=.., empty=..)] *)
Definition paginate (lines : list string) (embed : Embed)
    (max_lines : nat) (empty : bool) : M unit :=
  await (Paginate lines embed max_lines empty) (paginate_answer env lines embed).

(** [await ctx.send(embed=embed)] *)
Definition send (embed : Embed) : M unit :=
  await (Send embed) (send_embed_answer env embed).

(** The cache key [f"{list_type}.{allowed}"]. *)
Definition cache_key (list_type : string) (allowed : bool) : string :=
  list_type +:+ "." +:+ Py.str (Py.VBool allowed).

(** [self.bot.filter_list_cache[key]] *)
Definition cache_getitem (key : string) : M (list Py.dict) :=
  fun st => (Ok (filter_list_cache st !!! key), st).

(** [self.bot.filter_list_cache[key].remove(item)], in place. *)
Definition cache_remove (key : string) (item : Py.dict) : M unit :=
  fun st =>
    match Py.list_remove item (filter_list_cache st !!! key) with
    | Some l => (Ok tt, mkState (<[key := l]> (filter_list_cache st)) (calls st))
    | None => (Raise ValueError, st)
    end.

Definition allow_type_of (allowed : bool) : string :=
  if allowed then "whitelist" else "blacklist".

Definition already_exists_message (allow_type : string) : string :=
  "Unable to add the item to the " +:+ allow_type +:+ ". "
  +:+ "The item probably already exists. Keep in mind that a "
  +:+ "blacklist and a whitelist for the same item cannot co-exist, "
  +:+ "and we do not permit any duplicates.".

(** [FilterLists._add_data]; the calls to the logger leave no trace here. *)
Definition _add_data (allowed : bool) (list_type content : string)
    (comment : option string) : M unit :=
  let allow_type := allow_type_of allowed in
  args <-
    (if String.eqb list_type "GUILD_INVITE" then
       guild_data <- validator_convert content ;;
       let content := Py.get guild_data "id" in
       let comment :=
         if negb (Py.truthy (Py.of_option comment))
         then Py.get guild_data "name"
         else Py.of_option comment in
       ret (content, comment)
     else ret (Py.VStr content, Py.of_option comment)) ;;
  let content := fst args in
  let comment := snd args in
  let payload : Py.dict :=
    {[ "allowed" := Py.VBool allowed;
       "type" := Py.VStr list_type;
       "content" := content;
       "comment" := comment ]} in
  item <-
    try_except (api_client_post "bot/filter-lists" payload)
      (fun e =>
         match e with
         | ResponseCodeError status =>
             if Z.eqb status 400 then
               add_reaction "❌" ;;
               raise (BadArgument (already_exists_message allow_type))
             else raise e
         | _ => raise e
         end) ;;
  modify (fun st =>
    mkState (insert_item_into_filter_list_cache env item (filter_list_cache st))
            (calls st)) ;;
  add_reaction "✅".

(** The test of the search loop: [content == allow_list.get("content")]. *)
Definition content_matches (content : Py.value) (allow_list : Py.dict) : bool :=
  Py.eqb content (Py.get allow_list "content").

(** The address of the delete-by-id call:
    [f"bot/filter-lists/{item.get('id')}"]. *)
Definition delete_url (item : Py.dict) : string :=
  "bot/filter-lists/" +:+ Py.str (Py.get item "id").

(** [FilterLists._delete_data]; the [for] loop that stops at the first entry
    passing the test is [List.find]. *)
Definition _delete_data (allowed : bool) (list_type content : string) : M unit :=
  content <-
    (if String.eqb list_type "GUILD_INVITE" && negb (_get_id_match env content)
     then
       guild_data <- validator_convert content ;;
       ret (Py.get guild_data "id")
     else ret (Py.VStr content)) ;;
  allow_lists <- cache_getitem (cache_key list_type allowed) ;;
  let item := List.find (content_matches content) allow_lists in
  match item with
  | Some item =>
      api_client_delete (delete_url item) ;;
      cache_remove (cache_key list_type allowed) item ;;
      add_reaction "✅"
  | None => ret tt
  end.

(** One line of the listing: the content, then the comment if there is one. *)
Definition render_line (item : Py.dict) : string :=
  let line := "• `" +:+ Py.str (Py.get item "content") +:+ "`" in
  if Py.truthy (Py.get item "comment")
  then line +:+ " - " +:+ Py.str (Py.get item "comment")
  else line.

(** [sorted(lines)]: strings are ordered code point by code point, which on
    their UTF-8 encoding is the byte-wise order [String.le]. *)
Definition sorted (lines : list string) : list string :=
  merge_sort String.le lines.

Definition nothing_here : string :=
  "Hmmm, seems like there's nothing here yet.".

(** [FilterLists._list_all_data] *)
Definition _list_all_data (allowed : bool) (list_type : string) : M unit :=
  let allow_type := allow_type_of allowed in
  result <- cache_getitem (cache_key list_type allowed) ;;
  let lines := sorted (render_line <$> result) in
  let list_type_plural :=
    Py.title (Py.replace "_" " " (Py.lower list_type)) +:+ "s" in
  let embed :=
    mkEmbed (Py.title allow_type +:+ "ed " +:+ list_type_plural
               +:+ " (" +:+ pretty (length result) +:+ " total)")
            Colour_blue None in
  match result with
  | _ :: _ => paginate lines embed 15 false
  | [] => send (mkEmbed (title embed) (colour embed) (Some nothing_here))
  end.

(** The content a removal searches the cache for, when the command gets that
    far: the argument itself, or the id of the server its invite resolves to. *)
Definition searched_content (list_type content : string) : result Py.value :=
  if String.eqb list_type "GUILD_INVITE" && negb (_get_id_match env content)
  then match convert env content with
       | Ok guild_data => Ok (Py.get guild_data "id")
       | Raise e => Raise e
       end
  else Ok (Py.VStr content).

(** The calls a removal makes before it searches the cache. *)
Definition resolution_calls (list_type content : string) : list call :=
  if String.eqb list_type "GUILD_INVITE" && negb (_get_id_match env content)
  then [Convert content]
  else [].

(** Telling the calls apart when counting them. *)
Definition is_api_post (c : call) : bool :=
  match c with ApiPost _ _ => true | _ => false end.

Definition is_api_delete (c : call) : bool :=
  match c with ApiDelete _ => true | _ => false end.

Definition is_add_reaction (c : call) : bool :=
  match c with AddReaction _ => true | _ => false end.

(** The calls made between two states of one run. *)
Definition new_calls (before after : state) : list call :=
  drop (length (calls before)) (calls after).

(** [FilterLists.allow_add] and [FilterLists.deny_add], the [add] commands of
    the [whitelist] and [blacklist] groups. *)
Definition allow_add (list_type content : string) (comment : option string) : M unit :=
  _add_data true list_type content comment.

Definition deny_add (list_type content : string) (comment : option string) : M unit :=
  _add_data false list_type content comment.

(** [FilterLists.allow_delete] and [FilterLists.deny_delete], the [remove]
    commands. *)
Definition allow_delete (list_type content : string) : M unit :=
  _delete_data true list_type content.

Definition deny_delete (list_type content : string) : M unit :=
  _delete_data false list_type content.

(** [FilterLists.allow_get] and [FilterLists.deny_get], the [get] commands. *)
Definition allow_get (list_type : string) : M unit :=
  _list_all_data true list_type.

Definition deny_get (list_type : string) : M unit :=
  _list_all_data false list_type.

(** The four ways through the body of [_delete_data], each with the result
    and the state it ends in: the invite is rejected; nothing in the sequence
    has the searched content; the first entry that has it is found and the
    delete call raises; it is found and the delete call returns, the entry
    is taken out and the reaction is awaited. *)
Inductive delete_outcome (allowed : bool) (list_type content : string)
    (st : state) : result unit * state -> Prop :=
| delete_invalid (e : exn) :
    searched_content list_type content = Raise e ->
    delete_outcome allowed list_type content st
      (Raise e,
       mkState (filter_list_cache st)
               (calls st ++ resolution_calls list_type content))
| delete_nothing (c : Py.value) :
    searched_content list_type content = Ok c ->
    Forall (fun y => content_matches c y = false)
           (filter_list_cache st !!! cache_key list_type allowed) ->
    delete_outcome allowed list_type content st
      (Ok tt,
       mkState (filter_list_cache st)
               (calls st ++ resolution_calls list_type content))
| delete_refused (c : Py.value) (l1 l2 : list Py.dict) (item : Py.dict) (e : exn) :
    searched_content list_type content = Ok c ->
    filter_list_cache st !!! cache_key list_type allowed = l1 ++ item :: l2 ->
    Forall (fun y => content_matches c y = false) l1 ->
    content_matches c item = true ->
    delete env (delete_url item) = Raise e ->
    delete_outcome allowed list_type content st
      (Raise e,
       mkState (filter_list_cache st)
               (calls st ++ resolution_calls list_type content
                  ++ [ApiDelete (delete_url item)]))
| delete_done (c : Py.value) (l1 l2 : list Py.dict) (item : Py.dict) :
    searched_content list_type content = Ok c ->
    filter_list_cache st !!! cache_key list_type allowed = l1 ++ item :: l2 ->
    Forall (fun y => content_matches c y = false) l1 ->
    content_matches c item = true ->
    delete env (delete_url item) = Ok tt ->
    delete_outcome allowed list_type content st
      (add_reaction_answer env "✅",
       mkState (<[cache_key list_type allowed := l1 ++ l2]> (filter_list_cache st))
               (calls st ++ resolution_calls list_type content
                  ++ [ApiDelete (delete_url item); AddReaction "✅"])).

End Cog.
End FilterLists.

(** ** The command-error dispatcher *)

Module ErrorHandler.

(** Modelled from the spec: [bot/cogs/error_handler.py] is not part of the
    sources at hand, only its tests are. The classes of command errors that
    the dispatcher tells apart. *)
Inductive error_class : Type :=
| CommandNotFound
| UserInputError
| CheckFailure
| CommandOnCooldown
| OtherCommandError.

(** Modelled from the spec: a command error with its [handled] marker
    ([VNone] when a command-local handler has not set it). *)
Record CommandError : Type := mkError {
  class : error_class;
  handled : Py.value
}.

(** Modelled from the spec: what the dispatcher reads from the invocation:
    the id of the originating channel and whether the
    [invoked_from_error_handler] marker is set (the tests set it on the
    context they pass along with the error). *)
Record Context : Type := mkContext {
  channel_id : Z;
  invoked_from_error_handler : bool
}.

(** Modelled from the spec: the actions the dispatcher of
    [bot/cogs/error_handler.py] (not part of the sources at hand) awaits:
    silence recovery, tag fallback, the delegated handlers, the message that
    carries a cooldown error, and the generic handler. *)
Inductive call : Type :=
| TrySilence
| TryGetTag
| HandleUserInputError
| HandleCheckFailure
| SendError
| HandleUnexpectedError.

(** Modelled from the spec: what lies outside the dispatcher of
    [bot/cogs/error_handler.py] (not part of the sources at hand): the id of
    the verification channel ([Channels.verification]) and the answers of the
    actions it delegates to. *)
Record Env : Type := mkEnv {
  verification : Z;
  try_silence_answer : result bool;
  try_get_tag_answer : result unit;
  handle_user_input_error_answer : result unit;
  handle_check_failure_answer : result unit;
  send_answer : result unit;
  handle_unexpected_error_answer : result unit
}.

Section Cog.
Variable env : Env.

(** An awaited action: it is recorded, and its answer comes from outside. *)
Definition await {A} (c : call) (answer : result A) : M A :=
  fun calls : list call => (answer, calls ++ [c]).

Definition try_silence : M bool := await TrySilence (try_silence_answer env).
Definition try_get_tag : M unit := await TryGetTag (try_get_tag_answer env).
Definition handle_user_input_error : M unit :=
  await HandleUserInputError (handle_user_input_error_answer env).
Definition handle_check_failure : M unit :=
  await HandleCheckFailure (handle_check_failure_answer env).
Definition send_error : M unit := await SendError (send_answer env).
Definition handle_unexpected_error : M unit :=
  await HandleUnexpectedError (handle_unexpected_error_answer env).

(** Modelled from the spec: [ErrorHandler.on_command_error] of
    [bot/cogs/error_handler.py], which is not part of the sources at hand. It
    is the decision table of the dispatcher; the first matching step ends the
    dispatch, and the marker of step 2 makes that step do nothing. *)
Definition on_command_error (ctx : Context) (e : CommandError) : M unit :=
  if Py.truthy (handled e) then ret tt
  else
    match class e with
    | CommandNotFound =>
        if invoked_from_error_handler ctx then ret tt
        else
          silenced <- try_silence ;;
          if (silenced : bool) then ret tt
          else if Z.eqb (channel_id ctx) (verification env) then ret tt
          else try_get_tag
    | UserInputError => handle_user_input_error
    | CheckFailure => handle_check_failure
    | CommandOnCooldown => send_error
    | OtherCommandError => handle_unexpected_error
    end.

End Cog.
End ErrorHandler.

(** ** A concrete bot, to run the commands on *)

Module Scenario.
Import FilterLists.

(** The server an invite resolves to. *)
Definition python_discord : Py.dict :=
  {[ "id" := Py.VStr "267624335836053506";
     "name" := Py.VStr "Python Discord" ]}.

Definition entry (id : Z) (content : string) (comment : Py.value) : Py.dict :=
  {[ "id" := Py.VInt id; "content" := Py.VStr content; "comment" := comment ]}.

(** Modelled from the spec: [insert_item_into_filter_list_cache] of
    [bot/bot.py], which is not part of the sources at hand; the returned entry
    goes to the end of the sequence under the key of its type and flag. *)
Definition append_item (item : Py.dict) (c : cache) : cache :=
  let key :=
    cache_key (Py.str (Py.get item "type")) (Py.truthy (Py.get item "allowed")) in
  <[key := (c !!! key) ++ [item]]> c.

(** A validator that rejects the invite [expired], a store that holds
    [dup.example] already and fails on the deletion of entry 3, a chat
    library for which no content of the scenario is a raw id, and a chat
    platform that takes every reaction, page and message. *)
Definition env : Env :=
  mkEnv
    (fun argument =>
       if String.eqb argument "expired"
       then Raise (BadArgument "This invite is not valid.")
       else Ok python_discord)
    (fun url json =>
       if Py.eqb (Py.get json "content") (Py.VStr "dup.example")
       then Raise (ResponseCodeError 400)
       else Ok (<["id" := Py.VInt 7]> json))
    (fun url =>
       if String.eqb url "bot/filter-lists/3"
       then Raise (ResponseCodeError 500)
       else Ok tt)
    (fun argument => false)
    append_item
    (fun emoji => Ok tt)
    (fun lines embed => Ok tt)
    (fun embed => Ok tt).

Definition domains : list Py.dict :=
  [ entry 2 "a.example" (Py.VStr "first");
    entry 1 "b.example" Py.VNone;
    entry 3 "c.example" (Py.VStr "");
    entry 4 "b.example" (Py.VStr "again") ].

(** The payload of the addition of [dup.example] to the allowed domains. *)
Definition dup_payload : Py.dict :=
  {[ "allowed" := Py.VBool true;
     "type" := Py.VStr "DOMAIN_NAME";
     "content" := Py.VStr "dup.example";
     "comment" := Py.VNone ]}.

Definition st : state :=
  mkState {[ "DOMAIN_NAME.True" := domains ]} [].

(** The dispatcher's surroundings: silence recovery answers false, the
    verification channel is 1234. *)
Definition dispatch_env : ErrorHandler.Env :=
  ErrorHandler.mkEnv 1234 (Ok false) (Ok tt) (Ok tt) (Ok tt) (Ok tt) (Ok tt).

End Scenario.

(** ** The same bot on a bad day *)

Module Outage.
Import FilterLists.

(** A store that answers every call with status 500; the validator is the
    one of the scenario. *)
Definition env : Env :=
  mkEnv
    (convert Scenario.env)
    (fun url json => Raise (ResponseCodeError 500))
    (fun url => Raise (ResponseCodeError 500))
    (fun argument => false)
    Scenario.append_item
    (fun emoji => Ok tt)
    (fun lines embed => Ok tt)
    (fun embed => Ok tt).

(** The bot of the scenario in a channel where it may not react: the chat
    platform refuses every reaction. *)
Definition no_reactions : Env :=
  mkEnv
    (convert Scenario.env)
    (post Scenario.env)
    (delete Scenario.env)
    (_get_id_match Scenario.env)
    Scenario.append_item
    (fun emoji => Raise (OtherError "Forbidden"))
    (fun lines embed => Ok tt)
    (fun embed => Ok tt).

(** The cache of the scenario with the allowed domains in reverse order. *)
Definition reordered : state :=
  mkState {[ "DOMAIN_NAME.True" := reverse Scenario.domains ]} [].

(** A cache with an allow list and a deny list of domains. *)
Definition two_lists : state :=
  mkState {[ "DOMAIN_NAME.True" := Scenario.domains;
             "DOMAIN_NAME.False" := [Scenario.entry 9 "a.example" Py.VNone] ]} [].

(** The payload of the addition of [new.example] to the allowed domains. *)
Definition new_payload : Py.dict :=
  {[ "allowed" := Py.VBool true;
     "type" := Py.VStr "DOMAIN_NAME";
     "content" := Py.VStr "new.example";
     "comment" := Py.VNone ]}.

End Outage.

(** * Properties *)

(** ** Python equality and the search of the cache *)

Section PyFacts.

Lemma num_get (d : Py.dict) (k : string) :
  Py.num (Py.get d k) = Py.get (Py.num <$> d) k.
Proof.
  unfold Py.get. rewrite lookup_fmap. by destruct (d !! k).
Qed.

Lemma dict_eqb_refl (d : Py.dict) : Py.dict_eqb d d = true.
Proof. unfold Py.dict_eqb. by apply bool_decide_eq_true_2. Qed.

Lemma dict_eqb_get (d1 d2 : Py.dict) (k : string) :
  Py.dict_eqb d1 d2 = true -> Py.num (Py.get d1 k) = Py.num (Py.get d2 k).
Proof.
  unfold Py.dict_eqb. intros Heq%bool_decide_eq_true_1.
  by rewrite !num_get, Heq.
Qed.

(** Equal dictionaries pass or fail the search test together. *)
Lemma dict_eqb_content_matches (c : Py.value) (d1 d2 : Py.dict) :
  Py.dict_eqb d1 d2 = true ->
  FilterLists.content_matches c d1 = FilterLists.content_matches c d2.
Proof.
  intros Heq. unfold FilterLists.content_matches, Py.eqb.
  by rewrite (dict_eqb_get d1 d2 "content" Heq).
Qed.

Lemma find_no_match {A} (f : A -> bool) (l : list A) :
  Forall (fun y => f y = false) l -> List.find f l = None.
Proof.
  induction 1 as [|y l Hy _ IH]; simpl; [done|]. by rewrite Hy.
Qed.

Lemma find_first_match {A} (f : A -> bool) (l1 l2 : list A) (x : A) :
  Forall (fun y => f y = false) l1 -> f x = true ->
  List.find f (l1 ++ x :: l2) = Some x.
Proof.
  intros Hl1 Hx. induction Hl1 as [|y l1 Hy _ IH]; simpl.
  - by rewrite Hx.
  - by rewrite Hy.
Qed.

Lemma find_split {A} (f : A -> bool) (l : list A) (x : A) :
  List.find f l = Some x ->
  exists l1 l2, l = l1 ++ x :: l2 /\
                Forall (fun y => f y = false) l1 /\ f x = true.
Proof.
  induction l as [|y l IH]; simpl; [done|].
  destruct (f y) eqn:Hy.
  - intros [= ->]. by exists [], l.
  - intros (l1 & l2 & -> & Hl1 & Hx)%IH.
    exists (y :: l1), l2. split_and!; [done| by constructor | done].
Qed.

(** [remove] takes out the entry the search stopped at: no earlier entry is
    equal to it, since none of them passes the search test. *)
Lemma list_remove_first_match (c : Py.value) (l1 l2 : list Py.dict) (x : Py.dict) :
  Forall (fun y => FilterLists.content_matches c y = false) l1 ->
  FilterLists.content_matches c x = true ->
  Py.list_remove x (l1 ++ x :: l2) = Some (l1 ++ l2).
Proof.
  intros Hl1 Hx. induction Hl1 as [|y l1 Hy _ IH]; simpl.
  - by rewrite dict_eqb_refl.
  - destruct (Py.dict_eqb y x) eqn:Heq.
    + rewrite (dict_eqb_content_matches c y x Heq) in Hy. congruence.
    + by rewrite IH.
Qed.

End PyFacts.

(** ** Removing an entry *)

Section DeleteData.
Import FilterLists.
Variable env : Env.

(** Once the content to search for is known, a removal is the search of the
    cache followed by the handling of what was found. *)
Lemma delete_data_run (allowed : bool) (list_type content : string)
    (st : state) (c : Py.value) :
  searched_content env list_type content = Ok c ->
  _delete_data env allowed list_type content st =
    let key := cache_key list_type allowed in
    let st1 :=
      mkState (filter_list_cache st)
              (calls st ++ resolution_calls env list_type content) in
    match List.find (content_matches c) (filter_list_cache st !!! key) with
    | Some item =>
        (api_client_delete env (delete_url item) ;;
         cache_remove key item ;;
         add_reaction env "✅") st1
    | None => (Ok tt, st1)
    end.
Proof.
  unfold searched_content, resolution_calls, _delete_data.
  destruct (String.eqb list_type "GUILD_INVITE" && negb (_get_id_match env content)).
  - unfold bind at 1 2. unfold validator_convert, await, ret.
    destruct (convert env content) as [guild_data|e]; [|done].
    intros [= <-]. unfold bind at 1, cache_getitem. simpl.
    by destruct (List.find _ _).
  - intros [= <-]. unfold bind at 1, ret. unfold bind at 1, cache_getitem.
    simpl. rewrite app_nil_r. destruct st as [cache cs]; simpl.
    by destruct (List.find _ _).
Qed.

(** C3: when no entry under the key has the searched content, a removal
    returns without an error, issues no delete call and no reaction (the only
    call it may have made is the resolution of the invite), and leaves the
    cache as it was. *)
Theorem delete_data_absent (allowed : bool) (list_type content : string)
    (st : state) (c : Py.value) :
  searched_content env list_type content = Ok c ->
  Forall (fun item => content_matches c item = false)
         (filter_list_cache st !!! cache_key list_type allowed) ->
  _delete_data env allowed list_type content st =
    (Ok tt, mkState (filter_list_cache st)
                    (calls st ++ resolution_calls env list_type content))
  /\ Forall (fun call => call = Convert content)
            (resolution_calls env list_type content).
Proof.
  intros Hc Hnone. split.
  - rewrite (delete_data_run _ _ _ _ c Hc). simpl.
    by rewrite (find_no_match _ _ Hnone).
  - unfold resolution_calls. destruct (_ && _); repeat constructor.
Qed.

(** The three steps taken for a found entry whose delete call succeeds; the
    result is the answer to the reaction, the last of them. *)
Lemma delete_found_run (key : string) (c : Py.value) (l1 l2 : list Py.dict)
    (item : Py.dict) (st : state) :
  filter_list_cache st !!! key = l1 ++ item :: l2 ->
  Forall (fun y => content_matches c y = false) l1 ->
  content_matches c item = true ->
  delete env (delete_url item) = Ok tt ->
  (api_client_delete env (delete_url item) ;;
   cache_remove key item ;;
   add_reaction env "✅") st =
    (add_reaction_answer env "✅",
     mkState (<[key := l1 ++ l2]> (filter_list_cache st))
                    (calls st ++ [ApiDelete (delete_url item); AddReaction "✅"])).
Proof.
  intros Hl Hl1 Hitem Hdel.
  unfold bind, api_client_delete, cache_remove, add_reaction, await.
  rewrite Hdel. simpl. rewrite Hl.
  rewrite (list_remove_first_match c l1 l2 item Hl1 Hitem).
  unfold record_call. simpl. by rewrite <- app_assoc.
Qed.

(** C4: when the search finds an entry and the store accepts the delete call,
    a removal issues that one delete-by-id call, takes one entry out of the
    sequence under the key, and then sends the success reaction, whose answer
    is the result of the removal. *)
Theorem delete_data_present (allowed : bool) (list_type content : string)
    (st : state) (c : Py.value) (item : Py.dict) :
  searched_content env list_type content = Ok c ->
  List.find (content_matches c)
            (filter_list_cache st !!! cache_key list_type allowed) = Some item ->
  delete env (delete_url item) = Ok tt ->
  exists l1 l2,
    filter_list_cache st !!! cache_key list_type allowed = l1 ++ item :: l2
    /\ _delete_data env allowed list_type content st =
         (add_reaction_answer env "✅",
          mkState (<[cache_key list_type allowed := l1 ++ l2]> (filter_list_cache st))
                  (calls st ++ resolution_calls env list_type content
                     ++ [ApiDelete (delete_url item); AddReaction "✅"]))
    /\ length (List.filter is_api_delete
                 (resolution_calls env list_type content
                    ++ [ApiDelete (delete_url item); AddReaction "✅"])) = 1
    /\ length (filter_list_cache st !!! cache_key list_type allowed)
         = S (length (l1 ++ l2)).
Proof.
  intros Hc Hfind Hdel.
  destruct (find_split _ _ _ Hfind) as (l1 & l2 & Hl & Hl1 & Hitem).
  exists l1, l2. split_and!; [done| | |].
  - rewrite (delete_data_run _ _ _ _ c Hc). simpl. rewrite Hfind.
    rewrite (delete_found_run _ c l1 l2); [|done..].
    simpl. by rewrite <- app_assoc.
  - unfold resolution_calls. by destruct (_ && _).
  - rewrite Hl, !length_app. simpl. lia.
Qed.

(** C9: the entry a removal takes out, and whose id it sends to the store, is
    the first one in cache order that has the searched content; every entry
    after it, among them any further entry with that content, stays. *)
Theorem delete_data_first_match (allowed : bool) (list_type content : string)
    (st : state) (c : Py.value) (l1 l2 : list Py.dict) (item : Py.dict) :
  searched_content env list_type content = Ok c ->
  filter_list_cache st !!! cache_key list_type allowed = l1 ++ item :: l2 ->
  Forall (fun y => content_matches c y = false) l1 ->
  content_matches c item = true ->
  Exists (fun y => content_matches c y = true) l2 ->
  delete env (delete_url item) = Ok tt ->
  let out := _delete_data env allowed list_type content st in
  calls (snd out) =
    calls st ++ resolution_calls env list_type content
      ++ [ApiDelete (delete_url item); AddReaction "✅"]
  /\ filter_list_cache (snd out) !!! cache_key list_type allowed = l1 ++ l2
  /\ Exists (fun y => content_matches c y = true)
            (filter_list_cache (snd out) !!! cache_key list_type allowed).
Proof.
  intros Hc Hl Hl1 Hitem Hl2 Hdel out. subst out.
  rewrite (delete_data_run _ _ _ _ c Hc). simpl.
  rewrite Hl, (find_first_match _ l1 l2 item Hl1 Hitem).
  rewrite (delete_found_run _ c l1 l2); [|done..].
  simpl. rewrite lookup_total_insert_eq. split_and!.
  - by rewrite <- app_assoc.
  - done.
  - apply Exists_app. by right.
Qed.

(** C10: when the search finds an entry but the delete call raises, the error
    leaves the removal at once: the cache is as it was and no reaction is
    sent. *)
Theorem delete_data_store_error (allowed : bool) (list_type content : string)
    (st : state) (c : Py.value) (item : Py.dict) (e : exn) :
  searched_content env list_type content = Ok c ->
  List.find (content_matches c)
            (filter_list_cache st !!! cache_key list_type allowed) = Some item ->
  delete env (delete_url item) = Raise e ->
  _delete_data env allowed list_type content st =
    (Raise e,
     mkState (filter_list_cache st)
             (calls st ++ resolution_calls env list_type content
                ++ [ApiDelete (delete_url item)]))
  /\ List.filter is_add_reaction
       (resolution_calls env list_type content ++ [ApiDelete (delete_url item)])
     = [].
Proof.
  intros Hc Hfind Hdel. split.
  - rewrite (delete_data_run _ _ _ _ c Hc). simpl. rewrite Hfind.
    unfold bind at 1. unfold api_client_delete, await. rewrite Hdel.
    unfold record_call. simpl. by rewrite <- app_assoc.
  - unfold resolution_calls. by destruct (_ && _).
Qed.

End DeleteData.

(** ** Adding an entry *)

(** Unfolds the coroutine operations of a command body. *)
Ltac run_coro :=
  unfold bind, try_except, ret, raise, modify,
    FilterLists.validator_convert, FilterLists.api_client_post,
    FilterLists.add_reaction, FilterLists.await, FilterLists.record_call;
  simpl.

(** Splits a statement about an addition into the ways the addition can go:
    invite rejected or not, then the answers of the create call and of the
    reaction that follows it. *)
Ltac add_data_cases env list_type content :=
  unfold FilterLists._add_data;
  destruct (String.eqb_spec list_type "GUILD_INVITE");
  run_coro;
  [destruct (FilterLists.convert env content) as [?guild_data|?e] eqn:?Hconvert;
   simpl|];
  try match goal with
      | |- context [FilterLists.post env ?u ?p] =>
          destruct (FilterLists.post env u p)
            as [?item|[?msg|?status| |?name]] eqn:?Hpost;
          simpl; try destruct (Z.eqb_spec status 400); simpl
      end;
  try match goal with
      | |- context [match FilterLists.add_reaction_answer env ?emoji with _ => _ end] =>
          destruct (FilterLists.add_reaction_answer env emoji)
            as [[]|?e] eqn:?Hreact;
          simpl
      end;
  unfold FilterLists.new_calls; simpl;
  rewrite <- ?app_assoc, ?drop_app_length; simpl.

Section AddData.
Import FilterLists.
Variable env : Env.

(** C1: when the create call of an addition fails with status 400, the
    command sends the failure reaction, makes no second create call and
    leaves the cache as it was; when the reaction call returns it then raises
    the argument error that says the item probably exists already and that a
    blacklist and a whitelist for the same item cannot co-exist, and when the
    reaction call raises, that exception is what the command raises. *)
Theorem add_data_conflict (allowed : bool) (list_type content : string)
    (comment : option string) (st : state) (url : string) (json : Py.dict)
    (new : list call) :
  let out := _add_data env allowed list_type content comment st in
  calls (snd out) = calls st ++ new ->
  In (ApiPost url json) new ->
  post env url json = Raise (ResponseCodeError 400) ->
  (exists before,
     new = before ++ [ApiPost url json; AddReaction "❌"]
     /\ List.filter is_api_post before = [])
  /\ filter_list_cache (snd out) = filter_list_cache st
  /\ fst out =
       match add_reaction_answer env "❌" with
       | Ok _ =>
           Raise (BadArgument
             (if allowed
              then "Unable to add the item to the whitelist. The item probably already exists. Keep in mind that a blacklist and a whitelist for the same item cannot co-exist, and we do not permit any duplicates."
              else "Unable to add the item to the blacklist. The item probably already exists. Keep in mind that a blacklist and a whitelist for the same item cannot co-exist, and we do not permit any duplicates."))
       | Raise e => Raise e
       end.
Proof.
  intros out. subst out. unfold _add_data.
  destruct (String.eqb list_type "GUILD_INVITE"); run_coro.
  1: destruct (convert env content) as [guild_data|e]; simpl.
  all: try match goal with
       | |- context [post env ?u ?p] =>
           destruct (post env u p) as [item|[msg|status| |name]] eqn:Hpost;
           simpl; try destruct (Z.eqb_spec status 400); simpl
       end.
  all: try destruct (add_reaction_answer env "✅") as [[]|e1]; simpl.
  all: try destruct (add_reaction_answer env "❌") as [[]|e2]; simpl.
  all: rewrite <- ?app_assoc; simpl; intros <-%app_inv_head Hin Hfail.
  all: repeat (destruct Hin as [Hin|Hin]; simplify_eq); try done.
  all: try congruence.
  all: split_and!;
    [first [by exists [] | by exists [Convert content]] | done |].
  all: by destruct allowed.
Qed.

(** C2: an addition to the server-invite list whose invite resolves submits
    the id of the resolved server as content, and as comment the name of the
    resolved server when no comment (or an empty one) was supplied, the
    supplied comment otherwise. *)
Theorem add_data_invite (allowed : bool) (content : string)
    (comment : option string) (st : state) (guild_data : Py.dict) :
  convert env content = Ok guild_data ->
  exists json rest,
    calls (snd (_add_data env allowed "GUILD_INVITE" content comment st)) =
      calls st ++ Convert content :: ApiPost "bot/filter-lists" json :: rest
    /\ json !! "content" = Some (Py.get guild_data "id")
    /\ (comment = None \/ comment = Some "" ->
        json !! "comment" = Some (Py.get guild_data "name"))
    /\ (forall s, comment = Some s -> s <> "" ->
        json !! "comment" = Some (Py.VStr s))
    /\ json !! "allowed" = Some (Py.VBool allowed)
    /\ json !! "type" = Some (Py.VStr "GUILD_INVITE").
Proof.
  intros Hconvert. unfold _add_data. simpl. run_coro. rewrite Hconvert. simpl.
  match goal with
  | |- context [post env ?u ?p] =>
      exists p; destruct (post env u p) as [item|[msg|status| |name]];
      simpl; try destruct (Z.eqb_spec status 400); simpl
  end.
  all: try destruct (add_reaction_answer env "✅") as [[]|e1]; simpl.
  all: try destruct (add_reaction_answer env "❌") as [[]|e2]; simpl.
  all: rewrite <- ?app_assoc; simpl; eexists; split; [reflexivity|].
  all: split_and!; try done.
  all: try (intros [-> | ->]; done).
  all: intros [|a s] -> Hs; done.
Qed.

End AddData.

(** ** Listing the entries *)

Section ListAllData.
Import FilterLists.
Variable env : Env.

(** [sorted] is determined by its specification: whatever the sorting
    algorithm, an ordered rearrangement of the lines is the list it returns. *)
Lemma sorted_unique (lines lines' : list string) :
  Permutation lines' lines -> Sorted String.le lines' -> lines' = sorted lines.
Proof.
  intros Hperm Hsorted. apply (Sorted_unique String.le); [done| |].
  - apply Sorted_merge_sort, _.
  - unfold sorted. by rewrite merge_sort_Permutation.
Qed.

Lemma string_app_assoc (s1 s2 s3 : string) :
  (s1 +:+ s2) +:+ s3 = s1 +:+ (s2 +:+ s3).
Proof.
  induction s1 as [|a s1 IH]; [reflexivity|].
  change (String a ((s1 +:+ s2) +:+ s3) = String a (s1 +:+ (s2 +:+ s3))).
  by rewrite IH.
Qed.

(** The text of a line, spelled out: a bullet, the content between
    backticks, then a dash and the comment when the comment is truthy. *)
Lemma render_line_text (item : Py.dict) :
  render_line item =
    "• `" +:+ Py.str (Py.get item "content") +:+ "`"
    +:+ (if Py.truthy (Py.get item "comment")
         then " - " +:+ Py.str (Py.get item "comment")
         else "").
Proof.
  unfold render_line. cbv zeta.
  destruct (Py.truthy (Py.get item "comment")).
  - by rewrite !string_app_assoc.
  - reflexivity.
Qed.

(** C5: a listing leaves the cache as it was. For a non-empty sequence it
    hands the paginator, with a page size of 15, one line per entry (a
    bullet, the content between backticks, then a dash and the comment when
    there is one) in lexicographic order of the lines; for an empty one it
    sends the embed with the placeholder text and does not call the
    paginator. The result is the answer to that one call. *)
Theorem list_all_data_sorted (allowed : bool) (list_type : string) (st : state) :
  let result := filter_list_cache st !!! cache_key list_type allowed in
  let out := _list_all_data env allowed list_type st in
  filter_list_cache (snd out) = filter_list_cache st
  /\ match result with
     | [] =>
         exists embed,
           calls (snd out) = calls st ++ [Send embed]
           /\ description embed
              = Some "Hmmm, seems like there's nothing here yet."
           /\ fst out = send_embed_answer env embed
     | _ :: _ =>
         exists lines embed,
           calls (snd out) = calls st ++ [Paginate lines embed 15 false]
           /\ Permutation lines
                (List.map
                   (fun item =>
                      "• `" +:+ Py.str (Py.get item "content") +:+ "`"
                      +:+ (if Py.truthy (Py.get item "comment")
                           then " - " +:+ Py.str (Py.get item "comment")
                           else ""))
                   result)
           /\ Sorted String.le lines
           /\ description embed = None
           /\ fst out = paginate_answer env lines embed
     end.
Proof.
  intros result out. subst result out.
  unfold _list_all_data, bind, cache_getitem. simpl.
  destruct (filter_list_cache st !!! cache_key list_type allowed) as [|item l].
  - split; [done|]. by eexists.
  - split; [done|]. do 2 eexists. split_and!; [done| | |done|done].
    + unfold sorted. rewrite merge_sort_Permutation.
      change (render_line <$> item :: l) with (List.map render_line (item :: l)).
      erewrite List.map_ext; [done|]. apply render_line_text.
    + apply Sorted_merge_sort, _.
Qed.

End ListAllData.

(** ** The dispatcher *)

Section Dispatch.
Import ErrorHandler.
Variable env : Env.

(** C7: an error whose [handled] marker is truthy makes the dispatcher return
    at once: it awaits none of its actions and sends nothing. *)
Theorem on_command_error_already_handled (ctx : Context) (e : CommandError)
    (calls : list call) :
  Py.truthy (handled e) = true ->
  on_command_error env ctx e calls = (Ok tt, calls).
Proof.
  intros Hhandled. unfold on_command_error. by rewrite Hhandled.
Qed.

(** C8: a command-not-found error that comes with the
    [invoked_from_error_handler] marker makes the dispatcher return at once:
    no silence attempt, no tag fallback, nothing sent. *)
Theorem on_command_error_invoked_by_handler (ctx : Context) (e : CommandError)
    (calls : list call) :
  class e = CommandNotFound ->
  invoked_from_error_handler ctx = true ->
  on_command_error env ctx e calls = (Ok tt, calls).
Proof.
  intros Hclass Hmarker. unfold on_command_error.
  rewrite Hclass, Hmarker. by destruct (Py.truthy (handled e)).
Qed.

(** C6: for a command-not-found error that is dispatched (not handled
    already) without the [invoked_from_error_handler] marker, the silence
    attempt comes first; the tag fallback follows, once, exactly when the
    attempt answered false and the channel is not the verification channel. *)
Theorem on_command_error_command_not_found (ctx : Context) (e : CommandError)
    (calls : list call) (silenced : bool) :
  class e = CommandNotFound ->
  Py.truthy (handled e) = false ->
  invoked_from_error_handler ctx = false ->
  try_silence_answer env = Ok silenced ->
  let out := on_command_error env ctx e calls in
  snd out =
    calls ++ TrySilence ::
      (if silenced then []
       else if Z.eqb (channel_id ctx) (verification env) then []
       else [TryGetTag])
  /\ (silenced = true -> ~ In TryGetTag (drop (length calls) (snd out)))
  /\ (silenced = false -> channel_id ctx = verification env ->
      ~ In TryGetTag (drop (length calls) (snd out)))
  /\ (silenced = false -> channel_id ctx <> verification env ->
      drop (length calls) (snd out) = [TrySilence; TryGetTag]).
Proof.
  intros Hclass Hhandled Hmarker Hsilence out. subst out.
  unfold on_command_error. rewrite Hclass, Hhandled, Hmarker.
  unfold bind, try_silence, try_get_tag, await, ret. rewrite Hsilence.
  destruct silenced; simpl.
  - rewrite drop_app_length. split_and!; try done. intros _ [|[]]; done.
  - destruct (Z.eqb_spec (channel_id ctx) (verification env)) as [Heq|Hne]; simpl.
    + rewrite drop_app_length. split_and!; try done. intros _ _ [|[]]; done.
    + rewrite <- app_assoc, drop_app_length. by split_and!.
Qed.

End Dispatch.

(** ** The properties at work on the concrete bot *)

(** Settles a decidable statement about the scenario by evaluation. *)
Ltac by_evaluation := first
  [ vm_compute; reflexivity
  | apply (bool_decide_unpack _); vm_compute; exact I ].

Import FilterLists.

Example true_equals_one : Py.eqb (Py.VBool true) (Py.VInt 1) = true.
Proof. reflexivity. Qed.

Example list_remove_takes_first_equal :
  Py.list_remove (Scenario.entry 1 "b.example" Py.VNone) Scenario.domains
  = Some [Scenario.entry 2 "a.example" (Py.VStr "first");
          Scenario.entry 3 "c.example" (Py.VStr "");
          Scenario.entry 4 "b.example" (Py.VStr "again")].
Proof. by_evaluation. Qed.

(** The listing is ordered by rendered text: the second entry for
    [b.example] comes before the entry for [c.example], which precedes it in
    the cache; an empty comment is left out. *)
Example list_all_data_domains :
  _list_all_data Scenario.env true "DOMAIN_NAME" Scenario.st
  = (Ok tt,
     mkState (filter_list_cache Scenario.st)
       [Paginate ["• `a.example` - first";
                  "• `b.example`";
                  "• `b.example` - again";
                  "• `c.example`"]
                 (mkEmbed "Whitelisted Domain Names (4 total)" Colour_blue None)
                 15 false]).
Proof. by_evaluation. Qed.

Example list_all_data_empty :
  _list_all_data Scenario.env false "GUILD_INVITE" Scenario.st
  = (Ok tt,
     mkState (filter_list_cache Scenario.st)
       [Send (mkEmbed "Blacklisted Guild Invites (0 total)" Colour_blue
                      (Some "Hmmm, seems like there's nothing here yet."))]).
Proof. by_evaluation. Qed.

Example add_data_invalid_invite :
  _add_data Scenario.env true "GUILD_INVITE" "expired" None Scenario.st
  = (Raise (BadArgument "This invite is not valid."),
     mkState (filter_list_cache Scenario.st) [Convert "expired"]).
Proof. by_evaluation. Qed.

Example add_data_invite_with_comment :
  calls (snd (_add_data Scenario.env false "GUILD_INVITE" "python"
                (Some "partner server") Scenario.st))
  = [Convert "python";
     ApiPost "bot/filter-lists"
       {[ "allowed" := Py.VBool false;
          "type" := Py.VStr "GUILD_INVITE";
          "content" := Py.VStr "267624335836053506";
          "comment" := Py.VStr "partner server" ]};
     AddReaction "✅"].
Proof. by_evaluation. Qed.

Lemma add_data_conflict_witness :
  calls (snd (_add_data Scenario.env true "DOMAIN_NAME" "dup.example" None Scenario.st))
    = calls Scenario.st
        ++ [ApiPost "bot/filter-lists" Scenario.dup_payload; AddReaction "❌"]
  /\ In (ApiPost "bot/filter-lists" Scenario.dup_payload)
        [ApiPost "bot/filter-lists" Scenario.dup_payload; AddReaction "❌"]
  /\ post Scenario.env "bot/filter-lists" Scenario.dup_payload
       = Raise (ResponseCodeError 400)
  /\ add_reaction_answer Scenario.env "❌" = Ok tt
  /\ fst (_add_data Scenario.env true "DOMAIN_NAME" "dup.example" None Scenario.st)
       = Raise (BadArgument "Unable to add the item to the whitelist. The item probably already exists. Keep in mind that a blacklist and a whitelist for the same item cannot co-exist, and we do not permit any duplicates.")
  /\ filter_list_cache
       (snd (_add_data Scenario.env true "DOMAIN_NAME" "dup.example" None Scenario.st))
       = filter_list_cache Scenario.st.
Proof.
  assert (H1 : calls (snd (_add_data Scenario.env true "DOMAIN_NAME" "dup.example"
                             None Scenario.st))
               = calls Scenario.st
                   ++ [ApiPost "bot/filter-lists" Scenario.dup_payload;
                       AddReaction "❌"]) by by_evaluation.
  assert (H2 : In (ApiPost "bot/filter-lists" Scenario.dup_payload)
                  [ApiPost "bot/filter-lists" Scenario.dup_payload;
                   AddReaction "❌"]) by (left; reflexivity).
  assert (H3 : post Scenario.env "bot/filter-lists" Scenario.dup_payload
               = Raise (ResponseCodeError 400)) by by_evaluation.
  destruct (add_data_conflict Scenario.env true "DOMAIN_NAME" "dup.example" None
              Scenario.st _ _ _ H1 H2 H3) as (_ & Hcache & Hraise).
  split; [exact H1|]. split; [exact H2|]. split; [exact H3|].
  split; [reflexivity|]. split; [exact Hraise | exact Hcache].
Defined.

(** Where the bot may not react, a duplicate does not end in the argument
    error: the create call fails with status 400, the failure reaction is
    attempted, and its exception is what the addition raises. *)
Lemma add_data_conflict_counterexample :
  post Outage.no_reactions "bot/filter-lists" Scenario.dup_payload
    = Raise (ResponseCodeError 400)
  /\ calls (snd (_add_data Outage.no_reactions true "DOMAIN_NAME" "dup.example"
                   None Scenario.st))
     = [ApiPost "bot/filter-lists" Scenario.dup_payload; AddReaction "❌"]
  /\ fst (_add_data Outage.no_reactions true "DOMAIN_NAME" "dup.example"
                   None Scenario.st)
     = Raise (OtherError "Forbidden")
  /\ ~ (exists message,
          fst (_add_data Outage.no_reactions true "DOMAIN_NAME" "dup.example"
                 None Scenario.st)
          = Raise (BadArgument message)).
Proof.
  assert (Hraise : fst (_add_data Outage.no_reactions true "DOMAIN_NAME"
                          "dup.example" None Scenario.st)
                   = Raise (OtherError "Forbidden")) by by_evaluation.
  split; [by_evaluation|]. split; [by_evaluation|]. split; [exact Hraise|].
  intros [message Hmessage]. rewrite Hraise in Hmessage. discriminate.
Qed.

Lemma add_data_invite_witness :
  convert Scenario.env "python" = Ok Scenario.python_discord
  /\ exists json rest,
       calls (snd (_add_data Scenario.env true "GUILD_INVITE" "python" None Scenario.st))
         = calls Scenario.st
             ++ Convert "python" :: ApiPost "bot/filter-lists" json :: rest
       /\ json !! "content" = Some (Py.VStr "267624335836053506")
       /\ json !! "comment" = Some (Py.VStr "Python Discord").
Proof.
  assert (H1 : convert Scenario.env "python" = Ok Scenario.python_discord)
    by by_evaluation.
  split; [exact H1|].
  destruct (add_data_invite Scenario.env true "python" None Scenario.st _ H1)
    as (json & rest & Hcalls & Hcontent & Hcomment & _).
  exists json, rest. split_and!; [exact Hcalls | exact Hcontent |].
  apply Hcomment. left. reflexivity.
Defined.

Lemma delete_data_absent_witness :
  searched_content Scenario.env "DOMAIN_NAME" "d.example" = Ok (Py.VStr "d.example")
  /\ filter_list_cache Scenario.st !!! cache_key "DOMAIN_NAME" true
     = [Scenario.entry 2 "a.example" (Py.VStr "first");
        Scenario.entry 1 "b.example" Py.VNone;
        Scenario.entry 3 "c.example" (Py.VStr "");
        Scenario.entry 4 "b.example" (Py.VStr "again")]
  /\ Forall (fun item => content_matches (Py.VStr "d.example") item = false)
            (filter_list_cache Scenario.st !!! cache_key "DOMAIN_NAME" true)
  /\ _delete_data Scenario.env true "DOMAIN_NAME" "d.example" Scenario.st
       = (Ok tt, Scenario.st).
Proof.
  assert (H1 : searched_content Scenario.env "DOMAIN_NAME" "d.example"
               = Ok (Py.VStr "d.example")) by by_evaluation.
  assert (H2 : Forall (fun item =>
                         content_matches (Py.VStr "d.example") item = false)
                      (filter_list_cache Scenario.st !!! cache_key "DOMAIN_NAME" true))
    by by_evaluation.
  split; [exact H1|]. split; [by_evaluation|]. split; [exact H2|].
  exact (proj1 (delete_data_absent Scenario.env true "DOMAIN_NAME" "d.example"
                  Scenario.st _ H1 H2)).
Defined.

(** The listing of the allowed domains, through the theorem: the lines it
    hands over are the ordered rearrangement of the four rendered entries. *)
Lemma list_all_data_sorted_witness :
  exists embed,
    calls (snd (_list_all_data Scenario.env true "DOMAIN_NAME" Scenario.st))
    = [Paginate ["• `a.example` - first";
                 "• `b.example`";
                 "• `b.example` - again";
                 "• `c.example`"]
                embed 15 false]
    /\ description embed = None
    /\ filter_list_cache
         (snd (_list_all_data Scenario.env true "DOMAIN_NAME" Scenario.st))
       = filter_list_cache Scenario.st.
Proof.
  pose proof (list_all_data_sorted Scenario.env true "DOMAIN_NAME" Scenario.st)
    as Hlist.
  cbv zeta in Hlist. destruct Hlist as [Hcache Hlist].
  assert (Hentries : filter_list_cache Scenario.st !!! cache_key "DOMAIN_NAME" true
                     = Scenario.domains) by by_evaluation.
  rewrite Hentries in Hlist. unfold Scenario.domains in Hlist.
  destruct Hlist as (lines & embed & Hcalls & Hperm & Hsorted & Hdescription & _).
  apply sorted_unique in Hperm; [|exact Hsorted].
  assert (Hlines : lines = ["• `a.example` - first";
                            "• `b.example`";
                            "• `b.example` - again";
                            "• `c.example`"]).
  { rewrite Hperm. by_evaluation. }
  exists embed. rewrite Hcalls, Hlines.
  split; [reflexivity|]. split; [exact Hdescription | exact Hcache].
Defined.

Lemma delete_data_present_witness :
  searched_content Scenario.env "DOMAIN_NAME" "a.example" = Ok (Py.VStr "a.example")
  /\ List.find (content_matches (Py.VStr "a.example"))
        (filter_list_cache Scenario.st !!! cache_key "DOMAIN_NAME" true)
      = Some (Scenario.entry 2 "a.example" (Py.VStr "first"))
  /\ delete Scenario.env (delete_url (Scenario.entry 2 "a.example" (Py.VStr "first")))
      = Ok tt
  /\ exists l1 l2,
       Scenario.domains = l1 ++ Scenario.entry 2 "a.example" (Py.VStr "first") :: l2
       /\ _delete_data Scenario.env true "DOMAIN_NAME" "a.example" Scenario.st
          = (Ok tt,
             mkState (<["DOMAIN_NAME.True" := l1 ++ l2]> (filter_list_cache Scenario.st))
                     [ApiDelete "bot/filter-lists/2"; AddReaction "✅"])
       /\ length Scenario.domains = S (length (l1 ++ l2)).
Proof.
  assert (H1 : searched_content Scenario.env "DOMAIN_NAME" "a.example"
               = Ok (Py.VStr "a.example")) by by_evaluation.
  assert (H2 : List.find (content_matches (Py.VStr "a.example"))
                 (filter_list_cache Scenario.st !!! cache_key "DOMAIN_NAME" true)
               = Some (Scenario.entry 2 "a.example" (Py.VStr "first")))
    by by_evaluation.
  assert (H3 : delete Scenario.env
                 (delete_url (Scenario.entry 2 "a.example" (Py.VStr "first")))
               = Ok tt) by by_evaluation.
  split_and!; [exact H1 | exact H2 | exact H3 |].
  destruct (delete_data_present Scenario.env true "DOMAIN_NAME" "a.example"
              Scenario.st _ _ H1 H2 H3) as (l1 & l2 & Hl & Hrun & _ & Hlen).
  exists l1, l2. split_and!; [exact Hl | exact Hrun | exact Hlen].
Defined.

Lemma delete_data_first_match_witness :
  searched_content Scenario.env "DOMAIN_NAME" "b.example" = Ok (Py.VStr "b.example")
  /\ filter_list_cache Scenario.st !!! cache_key "DOMAIN_NAME" true
      = [Scenario.entry 2 "a.example" (Py.VStr "first")]
          ++ Scenario.entry 1 "b.example" Py.VNone
          :: [Scenario.entry 3 "c.example" (Py.VStr "");
              Scenario.entry 4 "b.example" (Py.VStr "again")]
  /\ Forall (fun y => content_matches (Py.VStr "b.example") y = false)
            [Scenario.entry 2 "a.example" (Py.VStr "first")]
  /\ content_matches (Py.VStr "b.example") (Scenario.entry 1 "b.example" Py.VNone)
      = true
  /\ Exists (fun y => content_matches (Py.VStr "b.example") y = true)
            [Scenario.entry 3 "c.example" (Py.VStr "");
             Scenario.entry 4 "b.example" (Py.VStr "again")]
  /\ delete Scenario.env (delete_url (Scenario.entry 1 "b.example" Py.VNone)) = Ok tt
  /\ calls (snd (_delete_data Scenario.env true "DOMAIN_NAME" "b.example" Scenario.st))
      = [ApiDelete "bot/filter-lists/1"; AddReaction "✅"]
  /\ filter_list_cache
        (snd (_delete_data Scenario.env true "DOMAIN_NAME" "b.example" Scenario.st))
        !!! cache_key "DOMAIN_NAME" true
      = [Scenario.entry 2 "a.example" (Py.VStr "first");
         Scenario.entry 3 "c.example" (Py.VStr "");
         Scenario.entry 4 "b.example" (Py.VStr "again")].
Proof.
  assert (H1 : searched_content Scenario.env "DOMAIN_NAME" "b.example"
               = Ok (Py.VStr "b.example")) by by_evaluation.
  assert (H2 : filter_list_cache Scenario.st !!! cache_key "DOMAIN_NAME" true
               = [Scenario.entry 2 "a.example" (Py.VStr "first")]
                   ++ Scenario.entry 1 "b.example" Py.VNone
                   :: [Scenario.entry 3 "c.example" (Py.VStr "");
                       Scenario.entry 4 "b.example" (Py.VStr "again")])
    by by_evaluation.
  assert (H3 : Forall (fun y => content_matches (Py.VStr "b.example") y = false)
                 [Scenario.entry 2 "a.example" (Py.VStr "first")])
    by by_evaluation.
  assert (H4 : content_matches (Py.VStr "b.example")
                 (Scenario.entry 1 "b.example" Py.VNone) = true) by by_evaluation.
  assert (H5 : Exists (fun y => content_matches (Py.VStr "b.example") y = true)
                 [Scenario.entry 3 "c.example" (Py.VStr "");
                  Scenario.entry 4 "b.example" (Py.VStr "again")])
    by by_evaluation.
  assert (H6 : delete Scenario.env
                 (delete_url (Scenario.entry 1 "b.example" Py.VNone)) = Ok tt)
    by by_evaluation.
  destruct (delete_data_first_match Scenario.env true "DOMAIN_NAME" "b.example"
              Scenario.st _ _ _ _ H1 H2 H3 H4 H5 H6) as (Hcalls & Hcache & _).
  split_and!; [exact H1 | exact H2 | exact H3 | exact H4 | exact H5 | exact H6
              | exact Hcalls | exact Hcache].
Defined.

Lemma delete_data_store_error_witness :
  searched_content Scenario.env "DOMAIN_NAME" "c.example" = Ok (Py.VStr "c.example")
  /\ List.find (content_matches (Py.VStr "c.example"))
        (filter_list_cache Scenario.st !!! cache_key "DOMAIN_NAME" true)
      = Some (Scenario.entry 3 "c.example" (Py.VStr ""))
  /\ delete Scenario.env (delete_url (Scenario.entry 3 "c.example" (Py.VStr "")))
      = Raise (ResponseCodeError 500)
  /\ _delete_data Scenario.env true "DOMAIN_NAME" "c.example" Scenario.st
      = (Raise (ResponseCodeError 500),
         mkState (filter_list_cache Scenario.st) [ApiDelete "bot/filter-lists/3"]).
Proof.
  assert (H1 : searched_content Scenario.env "DOMAIN_NAME" "c.example"
               = Ok (Py.VStr "c.example")) by by_evaluation.
  assert (H2 : List.find (content_matches (Py.VStr "c.example"))
                 (filter_list_cache Scenario.st !!! cache_key "DOMAIN_NAME" true)
               = Some (Scenario.entry 3 "c.example" (Py.VStr "")))
    by by_evaluation.
  assert (H3 : delete Scenario.env
                 (delete_url (Scenario.entry 3 "c.example" (Py.VStr "")))
               = Raise (ResponseCodeError 500)) by by_evaluation.
  split_and!; [exact H1 | exact H2 | exact H3 |].
  exact (proj1 (delete_data_store_error Scenario.env true "DOMAIN_NAME" "c.example"
                  Scenario.st _ _ _ H1 H2 H3)).
Defined.

Lemma on_command_error_already_handled_witness :
  Py.truthy (ErrorHandler.handled
               (ErrorHandler.mkError ErrorHandler.OtherCommandError (Py.VStr "foo")))
    = true
  /\ ErrorHandler.on_command_error Scenario.dispatch_env
        (ErrorHandler.mkContext 99 false)
        (ErrorHandler.mkError ErrorHandler.OtherCommandError (Py.VStr "foo")) []
      = (Ok tt, []).
Proof.
  split; [reflexivity|].
  apply (on_command_error_already_handled Scenario.dispatch_env). reflexivity.
Defined.

Lemma on_command_error_invoked_by_handler_witness :
  ErrorHandler.class (ErrorHandler.mkError ErrorHandler.CommandNotFound Py.VNone)
    = ErrorHandler.CommandNotFound
  /\ ErrorHandler.invoked_from_error_handler (ErrorHandler.mkContext 99 true) = true
  /\ ErrorHandler.on_command_error Scenario.dispatch_env
        (ErrorHandler.mkContext 99 true)
        (ErrorHandler.mkError ErrorHandler.CommandNotFound Py.VNone) []
      = (Ok tt, []).
Proof.
  split_and!; [reflexivity..|].
  apply (on_command_error_invoked_by_handler Scenario.dispatch_env); reflexivity.
Defined.

Lemma on_command_error_command_not_found_witness :
  ErrorHandler.try_silence_answer Scenario.dispatch_env = Ok false
  /\ snd (ErrorHandler.on_command_error Scenario.dispatch_env
            (ErrorHandler.mkContext 99 false)
            (ErrorHandler.mkError ErrorHandler.CommandNotFound Py.VNone) [])
      = [ErrorHandler.TrySilence; ErrorHandler.TryGetTag]
  /\ snd (ErrorHandler.on_command_error Scenario.dispatch_env
            (ErrorHandler.mkContext 1234 false)
            (ErrorHandler.mkError ErrorHandler.CommandNotFound Py.VNone) [])
      = [ErrorHandler.TrySilence].
Proof.
  split_and!; [reflexivity| |].
  - exact (proj1 (on_command_error_command_not_found Scenario.dispatch_env
                    (ErrorHandler.mkContext 99 false)
                    (ErrorHandler.mkError ErrorHandler.CommandNotFound Py.VNone)
                    [] false eq_refl eq_refl eq_refl eq_refl)).
  - exact (proj1 (on_command_error_command_not_found Scenario.dispatch_env
                    (ErrorHandler.mkContext 1234 false)
                    (ErrorHandler.mkError ErrorHandler.CommandNotFound Py.VNone)
                    [] false eq_refl eq_refl eq_refl eq_refl)).
Defined.

(** * Further properties of the cog *)

(** ** The cache key *)

Section CacheKey.
Import FilterLists.

Lemma string_app_to_list (s1 s2 : string) :
  String.list_ascii_of_string (s1 +:+ s2)
  = String.list_ascii_of_string s1 ++ String.list_ascii_of_string s2.
Proof. induction s1 as [|a s1 IH]; simpl; [done|]. by rewrite IH. Qed.

Lemma string_to_list_inj (s1 s2 : string) :
  String.list_ascii_of_string s1 = String.list_ascii_of_string s2 -> s1 = s2.
Proof.
  intros Heq.
  rewrite <- (String.string_of_list_ascii_of_string s1),
          <- (String.string_of_list_ascii_of_string s2).
  by rewrite Heq.
Qed.

(** The key of an allow list is never the key of a deny list. *)
Lemma cache_key_flag (list_type list_type' : string) :
  cache_key list_type true <> cache_key list_type' false.
Proof.
  unfold cache_key. intros Heq%(f_equal String.list_ascii_of_string).
  rewrite !string_app_to_list in Heq. simpl in Heq.
  change (String.list_ascii_of_string list_type'
            ++ ["."; "F"; "a"; "l"; "s"; "e"]%char)
    with (String.list_ascii_of_string list_type'
            ++ ["."%char] ++ ["F"; "a"; "l"; "s"; "e"]%char) in Heq.
  rewrite (app_assoc _ ["."%char]) in Heq.
  apply app_inj_2 in Heq as [_ Heq]; [|done]. discriminate.
Qed.

Lemma cache_key_same_flag (list_type list_type' : string) (allowed : bool) :
  cache_key list_type allowed = cache_key list_type' allowed ->
  list_type = list_type'.
Proof.
  unfold cache_key. intros Heq%(f_equal String.list_ascii_of_string).
  rewrite !string_app_to_list in Heq.
  apply app_inj_2 in Heq as [Heq _]; [|done]. by apply string_to_list_inj.
Qed.

(** X1: two commands read the same sequence of the cache only when they have
    the same list type and the same flag: the key determines both, whatever
    characters the list type is made of. *)
Theorem cache_key_inj (list_type list_type' : string) (allowed allowed' : bool) :
  cache_key list_type allowed = cache_key list_type' allowed' ->
  list_type = list_type' /\ allowed = allowed'.
Proof.
  intros Heq. destruct allowed, allowed'.
  - by apply cache_key_same_flag in Heq.
  - by apply cache_key_flag in Heq.
  - symmetry in Heq. by apply cache_key_flag in Heq.
  - by apply cache_key_same_flag in Heq.
Qed.

End CacheKey.

(** ** More on removals *)

Section DeleteDataMore.
Import FilterLists.
Variable env : Env.

Lemma new_calls_app (st : state) (cache' : cache) (new : list call) :
  new_calls st (mkState cache' (calls st ++ new)) = new.
Proof. unfold new_calls. simpl. by rewrite drop_app_length. Qed.

Lemma find_none_Forall {A} (f : A -> bool) (l : list A) :
  List.find f l = None -> Forall (fun y => f y = false) l.
Proof.
  induction l as [|y l IH]; simpl; [constructor|].
  destruct (f y) eqn:Hy; [done|]. intros Hl. constructor; auto.
Qed.

Lemma delete_data_outcome (allowed : bool) (list_type content : string)
    (st : state) :
  delete_outcome env allowed list_type content st
    (_delete_data env allowed list_type content st).
Proof.
  destruct (searched_content env list_type content) as [c|e] eqn:Hc.
  - rewrite (delete_data_run env _ _ _ _ c Hc). simpl.
    destruct (List.find _ _) as [item|] eqn:Hfind.
    + destruct (find_split _ _ _ Hfind) as (l1 & l2 & Hl & Hl1 & Hitem).
      destruct (delete env (delete_url item)) as [[]|e] eqn:Hdel.
      * rewrite (delete_found_run env _ c l1 l2); [|done..]. simpl.
        rewrite <- app_assoc. by eapply delete_done.
      * unfold bind at 1. unfold api_client_delete, await. rewrite Hdel.
        unfold record_call. simpl. rewrite <- app_assoc.
        by eapply delete_refused.
    + apply (delete_nothing env _ _ _ _ c Hc). by apply find_none_Forall.
  - assert (_delete_data env allowed list_type content st
            = (Raise e, mkState (filter_list_cache st)
                          (calls st ++ resolution_calls env list_type content)))
      as ->; [|by apply delete_invalid].
    revert Hc. unfold searched_content, resolution_calls, _delete_data.
    destruct (String.eqb list_type "GUILD_INVITE" && negb (_get_id_match env content));
      [|done].
    unfold bind at 1 2. unfold validator_convert, await, ret.
    destruct (convert env content); [done|]. by intros [= ->].
Qed.

(** X2: a removal from the server-invite list whose argument is not a raw id
    and whose invite the validator rejects ends with the validator's
    exception: no delete call, no reaction, and the cache as it was. *)
Theorem delete_data_invalid_invite (allowed : bool) (content : string)
    (st : state) (e : exn) :
  _get_id_match env content = false ->
  convert env content = Raise e ->
  _delete_data env allowed "GUILD_INVITE" content st =
    (Raise e, mkState (filter_list_cache st) (calls st ++ [Convert content])).
Proof.
  intros Hid Hconvert.
  destruct (delete_data_outcome allowed "GUILD_INVITE" content st)
    as [e' Hc|c Hc _|c l1 l2 item e' Hc _ _ _ _|c l1 l2 item Hc _ _ _ _];
    revert Hc; unfold searched_content, resolution_calls;
    rewrite Hid, Hconvert; simpl; [|done..].
  by intros [= ->].
Qed.

(** X3: a removal asks the invite validator exactly when the list type is
    the server-invite one and the argument is not a raw id, and then about
    the argument itself; raw ids and the other list types never reach it. *)
Theorem delete_data_validator_use (allowed : bool) (list_type content : string)
    (st : state) (argument : string) :
  In (Convert argument)
     (new_calls st (snd (_delete_data env allowed list_type content st)))
  <-> list_type = "GUILD_INVITE" /\ _get_id_match env content = false
      /\ argument = content.
Proof.
  assert (Hpre : In (Convert argument) (resolution_calls env list_type content)
                 <-> list_type = "GUILD_INVITE"
                     /\ _get_id_match env content = false
                     /\ argument = content).
  { unfold resolution_calls.
    destruct (String.eqb_spec list_type "GUILD_INVITE") as [->|Hne];
      destruct (_get_id_match env content); simpl; split;
      try tauto; try (intros (? & ? & ?); congruence).
    - intros [[= ->]|[]]. done.
    - intros (_ & _ & ->). by left. }
  destruct (delete_data_outcome allowed list_type content st); simpl;
    rewrite new_calls_app, <- Hpre; try done.
  all: rewrite in_app_iff; simpl; split; [|tauto].
  all: intros [?|Hin]; [done|]; repeat (destruct Hin as [Hin|Hin]; try done).
Qed.

(** X4: whatever a removal does, the sequences under the other keys of the
    cache stay as they were. *)
Theorem delete_data_frame (allowed : bool) (list_type content : string)
    (st : state) (key : string) :
  key <> cache_key list_type allowed ->
  filter_list_cache (snd (_delete_data env allowed list_type content st)) !! key
  = filter_list_cache st !! key.
Proof.
  intros Hkey.
  destruct (delete_data_outcome allowed list_type content st); simpl; try done.
  by rewrite lookup_insert_ne.
Qed.

(** X5: a removal raises only what the invite validator, the delete call of
    the store or the reaction call raised; taking the found entry out of the
    sequence never fails. *)
Theorem delete_data_raises (allowed : bool) (list_type content : string)
    (st : state) (e : exn) :
  fst (_delete_data env allowed list_type content st) = Raise e ->
  convert env content = Raise e
  \/ (exists item,
        In item (filter_list_cache st !!! cache_key list_type allowed)
        /\ delete env (delete_url item) = Raise e)
  \/ add_reaction_answer env "✅" = Raise e.
Proof.
  destruct (delete_data_outcome allowed list_type content st)
    as [e' Hc|c Hc _|c l1 l2 item e' Hc Hl _ _ Hdel|c l1 l2 item Hc _ _ _ _];
    simpl.
  - intros [= <-]. left. revert Hc. unfold searched_content.
    destruct (_ && _); [|done].
    destruct (convert env content); [intros [=]|by intros [= ->]].
  - done.
  - intros [= <-]. right. left. exists item. split; [|done].
    rewrite Hl. apply in_elt.
  - intros Hreact. by right; right.
Qed.

(** X6: a removal makes at most one delete call, and only for an entry that
    is in the sequence under its key and has the searched content. *)
Theorem delete_data_store_call (allowed : bool) (list_type content : string)
    (st : state) (url : string) :
  In (ApiDelete url)
     (new_calls st (snd (_delete_data env allowed list_type content st))) ->
  length (List.filter is_api_delete
            (new_calls st (snd (_delete_data env allowed list_type content st))))
    = 1
  /\ exists c item,
       searched_content env list_type content = Ok c
       /\ In item (filter_list_cache st !!! cache_key list_type allowed)
       /\ content_matches c item = true
       /\ url = delete_url item.
Proof.
  assert (Hpre : forall u, ~ In (ApiDelete u) (resolution_calls env list_type content)).
  { intros u. unfold resolution_calls. destruct (_ && _); simpl; [|tauto].
    intros [[=]|[]]. }
  assert (Hcount : List.filter is_api_delete
                     (resolution_calls env list_type content) = []).
  { unfold resolution_calls. by destruct (_ && _). }
  destruct (delete_data_outcome allowed list_type content st)
    as [e' Hc|c Hc _|c l1 l2 item e' Hc Hl _ Hitem _|c l1 l2 item Hc Hl _ Hitem _];
    simpl; rewrite new_calls_app.
  1,2: by intros ?%Hpre.
  all: rewrite List.filter_app, Hcount; simpl.
  all: intros [?%Hpre|Hin]%in_app_iff; [done|].
  all: repeat (destruct Hin as [Hin|Hin]; try done); simplify_eq.
  all: split; [done|]; exists c, item; split_and!; try done.
  all: rewrite Hl; apply in_elt.
Qed.

(** X7: a removal sends a reaction only as its last call, right after a
    delete call that the store accepted; it is the success reaction, and its
    answer is the result of the removal. *)
Theorem delete_data_reaction (allowed : bool) (list_type content : string)
    (st : state) (emoji : string) :
  In (AddReaction emoji)
     (new_calls st (snd (_delete_data env allowed list_type content st))) ->
  emoji = "✅"
  /\ fst (_delete_data env allowed list_type content st)
     = add_reaction_answer env "✅"
  /\ exists before url,
       new_calls st (snd (_delete_data env allowed list_type content st))
       = before ++ [ApiDelete url; AddReaction emoji]
       /\ delete env url = Ok tt.
Proof.
  assert (Hpre : forall u, ~ In (AddReaction u) (resolution_calls env list_type content)).
  { intros u. unfold resolution_calls. destruct (_ && _); simpl; [|tauto].
    intros [[=]|[]]. }
  destruct (delete_data_outcome allowed list_type content st)
    as [e' Hc|c Hc _|c l1 l2 item e' Hc Hl _ Hitem _|c l1 l2 item Hc Hl _ Hitem Hdel];
    simpl; rewrite new_calls_app.
  1,2: by intros ?%Hpre.
  all: intros [?%Hpre|Hin]%in_app_iff; [done|].
  all: repeat (destruct Hin as [Hin|Hin]; try done); simplify_eq.
  split_and!; [done..|].
  by exists (resolution_calls env list_type content), (delete_url item).
Qed.

(** X8: a removal that goes through lowers the number of entries with the
    searched content under its key by exactly one. *)
Theorem delete_data_match_count (allowed : bool) (list_type content : string)
    (st : state) (c : Py.value) (item : Py.dict) :
  searched_content env list_type content = Ok c ->
  List.find (content_matches c)
            (filter_list_cache st !!! cache_key list_type allowed) = Some item ->
  delete env (delete_url item) = Ok tt ->
  S (length (List.filter (content_matches c)
               (filter_list_cache
                  (snd (_delete_data env allowed list_type content st))
                !!! cache_key list_type allowed)))
  = length (List.filter (content_matches c)
              (filter_list_cache st !!! cache_key list_type allowed)).
Proof.
  intros Hc Hfind Hdel.
  destruct (find_split _ _ _ Hfind) as (l1 & l2 & Hl & Hl1 & Hitem).
  rewrite (delete_data_run env _ _ _ _ c Hc). simpl. rewrite Hfind.
  rewrite (delete_found_run env _ c l1 l2); [|done..]. simpl.
  rewrite lookup_total_insert_eq, Hl, !List.filter_app. simpl.
  rewrite Hitem, !length_app. simpl. lia.
Qed.

(** X9: once the only entry with the searched content is gone, running the
    same removal again does nothing: no delete call, no reaction, the cache as
    the first removal left it. *)
Theorem delete_data_twice (allowed : bool) (list_type content : string)
    (st : state) (c : Py.value) (l1 l2 : list Py.dict) (item : Py.dict) :
  searched_content env list_type content = Ok c ->
  filter_list_cache st !!! cache_key list_type allowed = l1 ++ item :: l2 ->
  Forall (fun y => content_matches c y = false) (l1 ++ l2) ->
  content_matches c item = true ->
  delete env (delete_url item) = Ok tt ->
  let st1 := snd (_delete_data env allowed list_type content st) in
  _delete_data env allowed list_type content st1 =
    (Ok tt, mkState (filter_list_cache st1)
                    (calls st1 ++ resolution_calls env list_type content)).
Proof.
  intros Hc Hl Hrest Hitem Hdel st1. subst st1.
  apply Forall_app in Hrest as Hsplit. destruct Hsplit as [Hl1 Hl2].
  rewrite (delete_data_run env _ _ _ st c Hc). simpl.
  rewrite Hl, (find_first_match _ l1 l2 item Hl1 Hitem).
  rewrite (delete_found_run env _ c l1 l2); [|done..]. simpl.
  rewrite (delete_data_run env _ _ _ _ c Hc). simpl.
  rewrite lookup_total_insert_eq. by rewrite (find_no_match _ _ Hrest).
Qed.

End DeleteDataMore.

(** ** More on additions *)

Section AddDataMore.
Import FilterLists.
Variable env : Env.

(** X10: when the store accepts the create call of an addition, the entry
    the store returned (not the payload) is what goes into the cache, the
    success reaction follows the call, and the answer to that reaction is the
    result of the addition. *)
Theorem add_data_created (allowed : bool) (list_type content : string)
    (comment : option string) (st : state) (url : string)
    (json item : Py.dict) :
  In (ApiPost url json)
     (new_calls st (snd (_add_data env allowed list_type content comment st))) ->
  post env url json = Ok item ->
  fst (_add_data env allowed list_type content comment st)
  = add_reaction_answer env "✅"
  /\ filter_list_cache (snd (_add_data env allowed list_type content comment st))
     = insert_item_into_filter_list_cache env item (filter_list_cache st)
  /\ exists before,
       new_calls st (snd (_add_data env allowed list_type content comment st))
       = before ++ [ApiPost url json; AddReaction "✅"]
       /\ List.filter is_api_post before = [].
Proof.
  add_data_cases env list_type content; intros Hin Hok.
  all: repeat (destruct Hin as [Hin|Hin]; simplify_eq); try done.
  all: try congruence.
  all: assert (item0 = item) as -> by congruence.
  all: split_and!; [done..|].
  all: first [by exists [] | by exists [Convert content]].
Qed.

(** X11: an error of the create call other than a response with status 400
    leaves the addition as it is: no reaction is sent and the cache stays as
    it was. *)
Theorem add_data_store_error (allowed : bool) (list_type content : string)
    (comment : option string) (st : state) (url : string) (json : Py.dict)
    (e : exn) :
  In (ApiPost url json)
     (new_calls st (snd (_add_data env allowed list_type content comment st))) ->
  post env url json = Raise e ->
  e <> ResponseCodeError 400 ->
  fst (_add_data env allowed list_type content comment st) = Raise e
  /\ filter_list_cache (snd (_add_data env allowed list_type content comment st))
     = filter_list_cache st
  /\ List.filter is_add_reaction
       (new_calls st (snd (_add_data env allowed list_type content comment st)))
     = [].
Proof.
  add_data_cases env list_type content; intros Hin Hraise Hne.
  all: repeat (destruct Hin as [Hin|Hin]; simplify_eq); try done.
  all: try congruence.
  all: split_and!; try done; congruence.
Qed.

(** X12: an addition to the server-invite list whose invite the validator
    rejects ends with the validator's exception before anything is sent to
    the store: no create call, no reaction, the cache as it was. *)
Theorem add_data_rejected_invite (allowed : bool) (content : string)
    (comment : option string) (st : state) (e : exn) :
  convert env content = Raise e ->
  _add_data env allowed "GUILD_INVITE" content comment st =
    (Raise e, mkState (filter_list_cache st) (calls st ++ [Convert content])).
Proof.
  intros Hconvert. unfold _add_data. simpl. run_coro. by rewrite Hconvert.
Qed.

(** X13: for a list type other than the server-invite one, an addition does
    not ask the validator: its first call is the create call, with the
    content and the comment as they were given (no comment stays [None]). *)
Theorem add_data_plain (allowed : bool) (list_type content : string)
    (comment : option string) (st : state) :
  list_type <> "GUILD_INVITE" ->
  exists rest,
    new_calls st (snd (_add_data env allowed list_type content comment st))
    = ApiPost "bot/filter-lists"
        {[ "allowed" := Py.VBool allowed;
           "type" := Py.VStr list_type;
           "content" := Py.VStr content;
           "comment" := Py.of_option comment ]}
      :: rest
    /\ Forall (fun c => is_add_reaction c = true) rest.
Proof.
  add_data_cases env list_type content; intros Hne; try done.
  all: eexists; split; [reflexivity|]; repeat constructor.
Qed.

(** X14: an addition makes at most one create call; it goes to
    [bot/filter-lists] and its payload has the four fields [allowed], [type],
    [content] and [comment], the first two being the flag and the list type
    of the command. *)
Theorem add_data_payload (allowed : bool) (list_type content : string)
    (comment : option string) (st : state) (url : string) (json : Py.dict) :
  In (ApiPost url json)
     (new_calls st (snd (_add_data env allowed list_type content comment st))) ->
  url = "bot/filter-lists"
  /\ dom json = {[ "allowed"; "type"; "content"; "comment" ]}
  /\ json !! "allowed" = Some (Py.VBool allowed)
  /\ json !! "type" = Some (Py.VStr list_type)
  /\ length (List.filter is_api_post
               (new_calls st
                  (snd (_add_data env allowed list_type content comment st))))
     = 1.
Proof.
  add_data_cases env list_type content; intros Hin.
  all: repeat (destruct Hin as [Hin|Hin]; simplify_eq); try done.
  all: split_and!; try done.
  all: rewrite !dom_insert_L, dom_empty_L; set_solver.
Qed.

(** X15: an addition that returns normally has sent the success reaction;
    an addition that did not get as far as the success reaction leaves the
    cache as it was; and an addition never sends more than one reaction. *)
Theorem add_data_outcome (allowed : bool) (list_type content : string)
    (comment : option string) (st : state) :
  (fst (_add_data env allowed list_type content comment st) = Ok tt ->
   In (AddReaction "✅")
      (new_calls st (snd (_add_data env allowed list_type content comment st))))
  /\ (~ In (AddReaction "✅")
         (new_calls st (snd (_add_data env allowed list_type content comment st))) ->
      filter_list_cache (snd (_add_data env allowed list_type content comment st))
      = filter_list_cache st)
  /\ length (List.filter is_add_reaction
               (new_calls st
                  (snd (_add_data env allowed list_type content comment st))))
     <= 1.
Proof.
  add_data_cases env list_type content.
  all: split_and!; try done; try lia.
  all: try (intros Hno; exfalso; apply Hno; simpl; tauto).
  all: intros _; simpl; tauto.
Qed.

End AddDataMore.

(** ** The commands of the two groups *)

Section Commands.
Import FilterLists.
Variable env : Env.

(** X16: the [remove] command of the deny list leaves every allow list of
    the cache as it was, and the one of the allow list leaves every deny list
    as it was, whatever the list types and whatever the store answers. *)
Theorem delete_keeps_other_flag (list_type content : string) (st : state)
    (other_type : string) :
  filter_list_cache (snd (deny_delete env list_type content st))
    !! cache_key other_type true
  = filter_list_cache st !! cache_key other_type true
  /\ filter_list_cache (snd (allow_delete env list_type content st))
       !! cache_key other_type false
     = filter_list_cache st !! cache_key other_type false.
Proof.
  unfold deny_delete, allow_delete. split.
  - destruct (delete_data_outcome env false list_type content st); simpl;
      try done.
    rewrite lookup_insert_ne; [done|]. intros Heq. symmetry in Heq.
    by apply cache_key_flag in Heq.
  - destruct (delete_data_outcome env true list_type content st); simpl;
      try done.
    rewrite lookup_insert_ne; [done|]. apply cache_key_flag.
Qed.

End Commands.

(** ** More on listings *)

Section ListAllDataMore.
Import FilterLists.
Variable env : Env.

(** X17: what a listing displays does not depend on the order of the
    entries in the cache: two caches that hold the same entries under the key
    give the same call, lines and embed alike. *)
Theorem list_all_data_order (allowed : bool) (list_type : string)
    (st st' : state) :
  Permutation (filter_list_cache st !!! cache_key list_type allowed)
              (filter_list_cache st' !!! cache_key list_type allowed) ->
  new_calls st (snd (_list_all_data env allowed list_type st))
  = new_calls st' (snd (_list_all_data env allowed list_type st')).
Proof.
  intros Hperm. unfold _list_all_data, bind, cache_getitem, new_calls. simpl.
  generalize dependent (filter_list_cache st !!! cache_key list_type allowed).
  generalize dependent (filter_list_cache st' !!! cache_key list_type allowed).
  intros entries' entries Hperm.
  assert (Hlines : sorted (render_line <$> entries')
                   = sorted (render_line <$> entries)).
  { apply sorted_unique.
    - unfold sorted. rewrite merge_sort_Permutation. by rewrite Hperm.
    - apply Sorted_merge_sort, _. }
  rewrite Hlines, (Permutation_length Hperm).
  destruct entries as [|x l], entries' as [|x' l'].
  - unfold send, await. simpl. by rewrite !drop_app_length.
  - by apply Permutation_nil_cons in Hperm.
  - symmetry in Hperm. by apply Permutation_nil_cons in Hperm.
  - unfold paginate, await. simpl. by rewrite !drop_app_length.
Qed.

End ListAllDataMore.

(** ** The further properties at work on the concrete bot *)

Lemma cache_key_inj_witness :
  cache_key "DOMAIN_NAME" true = cache_key "DOMAIN_NAME" true
  /\ "DOMAIN_NAME" = "DOMAIN_NAME" /\ true = true.
Proof.
  split; [reflexivity|].
  apply (cache_key_inj "DOMAIN_NAME" "DOMAIN_NAME" true true). reflexivity.
Defined.

Lemma delete_data_invalid_invite_witness :
  _get_id_match Scenario.env "expired" = false
  /\ convert Scenario.env "expired" = Raise (BadArgument "This invite is not valid.")
  /\ _delete_data Scenario.env true "GUILD_INVITE" "expired" Scenario.st
     = (Raise (BadArgument "This invite is not valid."),
        mkState (filter_list_cache Scenario.st) [Convert "expired"]).
Proof.
  assert (H1 : _get_id_match Scenario.env "expired" = false) by reflexivity.
  assert (H2 : convert Scenario.env "expired"
               = Raise (BadArgument "This invite is not valid.")) by reflexivity.
  split; [exact H1|]. split; [exact H2|].
  exact (delete_data_invalid_invite Scenario.env true "expired" Scenario.st _ H1 H2).
Defined.

Lemma delete_data_frame_witness :
  "DOMAIN_NAME.False" <> cache_key "DOMAIN_NAME" true
  /\ filter_list_cache
       (snd (_delete_data Scenario.env true "DOMAIN_NAME" "a.example" Outage.two_lists))
       !! "DOMAIN_NAME.False"
     = Some [Scenario.entry 9 "a.example" Py.VNone].
Proof.
  assert (H1 : "DOMAIN_NAME.False" <> cache_key "DOMAIN_NAME" true)
    by (vm_compute; discriminate).
  split; [exact H1|].
  rewrite (delete_data_frame Scenario.env true "DOMAIN_NAME" "a.example"
             Outage.two_lists "DOMAIN_NAME.False" H1).
  by_evaluation.
Defined.

Lemma delete_data_raises_witness :
  fst (_delete_data Scenario.env true "DOMAIN_NAME" "c.example" Scenario.st)
    = Raise (ResponseCodeError 500)
  /\ (convert Scenario.env "c.example" = Raise (ResponseCodeError 500)
      \/ (exists item,
            In item (filter_list_cache Scenario.st !!! cache_key "DOMAIN_NAME" true)
            /\ delete Scenario.env (delete_url item) = Raise (ResponseCodeError 500))
      \/ add_reaction_answer Scenario.env "✅" = Raise (ResponseCodeError 500)).
Proof.
  assert (H1 : fst (_delete_data Scenario.env true "DOMAIN_NAME" "c.example" Scenario.st)
               = Raise (ResponseCodeError 500)) by by_evaluation.
  split; [exact H1|].
  exact (delete_data_raises Scenario.env true "DOMAIN_NAME" "c.example"
           Scenario.st _ H1).
Defined.

Lemma delete_data_store_call_witness :
  In (ApiDelete "bot/filter-lists/2")
     (new_calls Scenario.st
        (snd (_delete_data Scenario.env true "DOMAIN_NAME" "a.example" Scenario.st)))
  /\ length (List.filter is_api_delete
               (new_calls Scenario.st
                  (snd (_delete_data Scenario.env true "DOMAIN_NAME" "a.example"
                          Scenario.st))))
     = 1
  /\ exists c item,
       searched_content Scenario.env "DOMAIN_NAME" "a.example" = Ok c
       /\ In item (filter_list_cache Scenario.st !!! cache_key "DOMAIN_NAME" true)
       /\ content_matches c item = true
       /\ "bot/filter-lists/2" = delete_url item.
Proof.
  assert (H1 : In (ApiDelete "bot/filter-lists/2")
                 (new_calls Scenario.st
                    (snd (_delete_data Scenario.env true "DOMAIN_NAME" "a.example"
                            Scenario.st))))
    by (vm_compute; left; reflexivity).
  split; [exact H1|].
  exact (delete_data_store_call Scenario.env true "DOMAIN_NAME" "a.example"
           Scenario.st _ H1).
Defined.

Lemma delete_data_reaction_witness :
  In (AddReaction "✅")
     (new_calls Scenario.st
        (snd (_delete_data Scenario.env true "DOMAIN_NAME" "a.example" Scenario.st)))
  /\ "✅" = "✅"
  /\ fst (_delete_data Scenario.env true "DOMAIN_NAME" "a.example" Scenario.st)
     = add_reaction_answer Scenario.env "✅"
  /\ exists before url,
       new_calls Scenario.st
         (snd (_delete_data Scenario.env true "DOMAIN_NAME" "a.example" Scenario.st))
       = before ++ [ApiDelete url; AddReaction "✅"]
       /\ delete Scenario.env url = Ok tt.
Proof.
  assert (H1 : In (AddReaction "✅")
                 (new_calls Scenario.st
                    (snd (_delete_data Scenario.env true "DOMAIN_NAME" "a.example"
                            Scenario.st))))
    by (vm_compute; right; left; reflexivity).
  split; [exact H1|].
  exact (delete_data_reaction Scenario.env true "DOMAIN_NAME" "a.example"
           Scenario.st _ H1).
Defined.

Lemma delete_data_match_count_witness :
  searched_content Scenario.env "DOMAIN_NAME" "b.example" = Ok (Py.VStr "b.example")
  /\ List.find (content_matches (Py.VStr "b.example"))
       (filter_list_cache Scenario.st !!! cache_key "DOMAIN_NAME" true)
     = Some (Scenario.entry 1 "b.example" Py.VNone)
  /\ delete Scenario.env (delete_url (Scenario.entry 1 "b.example" Py.VNone)) = Ok tt
  /\ S (length (List.filter (content_matches (Py.VStr "b.example"))
                  (filter_list_cache
                     (snd (_delete_data Scenario.env true "DOMAIN_NAME" "b.example"
                             Scenario.st))
                   !!! cache_key "DOMAIN_NAME" true)))
     = length (List.filter (content_matches (Py.VStr "b.example"))
                 (filter_list_cache Scenario.st !!! cache_key "DOMAIN_NAME" true)).
Proof.
  assert (H1 : searched_content Scenario.env "DOMAIN_NAME" "b.example"
               = Ok (Py.VStr "b.example")) by by_evaluation.
  assert (H2 : List.find (content_matches (Py.VStr "b.example"))
                 (filter_list_cache Scenario.st !!! cache_key "DOMAIN_NAME" true)
               = Some (Scenario.entry 1 "b.example" Py.VNone)) by by_evaluation.
  assert (H3 : delete Scenario.env
                 (delete_url (Scenario.entry 1 "b.example" Py.VNone)) = Ok tt)
    by by_evaluation.
  split; [exact H1|]. split; [exact H2|]. split; [exact H3|].
  exact (delete_data_match_count Scenario.env true "DOMAIN_NAME" "b.example"
           Scenario.st _ _ H1 H2 H3).
Defined.

Lemma delete_data_twice_witness :
  searched_content Scenario.env "DOMAIN_NAME" "a.example" = Ok (Py.VStr "a.example")
  /\ filter_list_cache Scenario.st !!! cache_key "DOMAIN_NAME" true
     = [] ++ Scenario.entry 2 "a.example" (Py.VStr "first")
          :: [Scenario.entry 1 "b.example" Py.VNone;
              Scenario.entry 3 "c.example" (Py.VStr "");
              Scenario.entry 4 "b.example" (Py.VStr "again")]
  /\ Forall (fun y => content_matches (Py.VStr "a.example") y = false)
       ([] ++ [Scenario.entry 1 "b.example" Py.VNone;
               Scenario.entry 3 "c.example" (Py.VStr "");
               Scenario.entry 4 "b.example" (Py.VStr "again")])
  /\ content_matches (Py.VStr "a.example")
       (Scenario.entry 2 "a.example" (Py.VStr "first")) = true
  /\ delete Scenario.env (delete_url (Scenario.entry 2 "a.example" (Py.VStr "first")))
     = Ok tt
  /\ _delete_data Scenario.env true "DOMAIN_NAME" "a.example"
       (snd (_delete_data Scenario.env true "DOMAIN_NAME" "a.example" Scenario.st))
     = (Ok tt,
        mkState
          (filter_list_cache
             (snd (_delete_data Scenario.env true "DOMAIN_NAME" "a.example" Scenario.st)))
          [ApiDelete "bot/filter-lists/2"; AddReaction "✅"]).
Proof.
  assert (H1 : searched_content Scenario.env "DOMAIN_NAME" "a.example"
               = Ok (Py.VStr "a.example")) by by_evaluation.
  assert (H2 : filter_list_cache Scenario.st !!! cache_key "DOMAIN_NAME" true
               = [] ++ Scenario.entry 2 "a.example" (Py.VStr "first")
                    :: [Scenario.entry 1 "b.example" Py.VNone;
                        Scenario.entry 3 "c.example" (Py.VStr "");
                        Scenario.entry 4 "b.example" (Py.VStr "again")])
    by by_evaluation.
  assert (H3 : Forall (fun y => content_matches (Py.VStr "a.example") y = false)
                 ([] ++ [Scenario.entry 1 "b.example" Py.VNone;
                         Scenario.entry 3 "c.example" (Py.VStr "");
                         Scenario.entry 4 "b.example" (Py.VStr "again")]))
    by by_evaluation.
  assert (H4 : content_matches (Py.VStr "a.example")
                 (Scenario.entry 2 "a.example" (Py.VStr "first")) = true)
    by by_evaluation.
  assert (H5 : delete Scenario.env
                 (delete_url (Scenario.entry 2 "a.example" (Py.VStr "first")))
               = Ok tt) by by_evaluation.
  split; [exact H1|]. split; [exact H2|]. split; [exact H3|].
  split; [exact H4|]. split; [exact H5|].
  rewrite (delete_data_twice Scenario.env true "DOMAIN_NAME" "a.example"
             Scenario.st _ _ _ _ H1 H2 H3 H4 H5).
  by_evaluation.
Defined.

Lemma add_data_created_witness :
  In (ApiPost "bot/filter-lists" Outage.new_payload)
     (new_calls Scenario.st
        (snd (_add_data Scenario.env true "DOMAIN_NAME" "new.example" None Scenario.st)))
  /\ post Scenario.env "bot/filter-lists" Outage.new_payload
     = Ok (<["id" := Py.VInt 7]> Outage.new_payload)
  /\ fst (_add_data Scenario.env true "DOMAIN_NAME" "new.example" None Scenario.st)
     = Ok tt
  /\ filter_list_cache
       (snd (_add_data Scenario.env true "DOMAIN_NAME" "new.example" None Scenario.st))
     = Scenario.append_item (<["id" := Py.VInt 7]> Outage.new_payload)
         (filter_list_cache Scenario.st).
Proof.
  assert (H1 : In (ApiPost "bot/filter-lists" Outage.new_payload)
                 (new_calls Scenario.st
                    (snd (_add_data Scenario.env true "DOMAIN_NAME" "new.example"
                            None Scenario.st))))
    by (vm_compute; left; reflexivity).
  assert (H2 : post Scenario.env "bot/filter-lists" Outage.new_payload
               = Ok (<["id" := Py.VInt 7]> Outage.new_payload)) by by_evaluation.
  split; [exact H1|]. split; [exact H2|].
  destruct (add_data_created Scenario.env true "DOMAIN_NAME" "new.example" None
              Scenario.st _ _ _ H1 H2) as (Hok & Hcache & _).
  split; [exact Hok | exact Hcache].
Defined.

Lemma add_data_store_error_witness :
  In (ApiPost "bot/filter-lists" Outage.new_payload)
     (new_calls Scenario.st
        (snd (_add_data Outage.env true "DOMAIN_NAME" "new.example" None Scenario.st)))
  /\ post Outage.env "bot/filter-lists" Outage.new_payload
     = Raise (ResponseCodeError 500)
  /\ ResponseCodeError 500 <> ResponseCodeError 400
  /\ fst (_add_data Outage.env true "DOMAIN_NAME" "new.example" None Scenario.st)
     = Raise (ResponseCodeError 500)
  /\ filter_list_cache
       (snd (_add_data Outage.env true "DOMAIN_NAME" "new.example" None Scenario.st))
     = filter_list_cache Scenario.st
  /\ List.filter is_add_reaction
       (new_calls Scenario.st
          (snd (_add_data Outage.env true "DOMAIN_NAME" "new.example" None Scenario.st)))
     = [].
Proof.
  assert (H1 : In (ApiPost "bot/filter-lists" Outage.new_payload)
                 (new_calls Scenario.st
                    (snd (_add_data Outage.env true "DOMAIN_NAME" "new.example"
                            None Scenario.st))))
    by (vm_compute; left; reflexivity).
  assert (H2 : post Outage.env "bot/filter-lists" Outage.new_payload
               = Raise (ResponseCodeError 500)) by reflexivity.
  assert (H3 : ResponseCodeError 500 <> ResponseCodeError 400) by discriminate.
  split; [exact H1|]. split; [exact H2|]. split; [exact H3|].
  exact (add_data_store_error Outage.env true "DOMAIN_NAME" "new.example" None
           Scenario.st _ _ _ H1 H2 H3).
Defined.

Lemma add_data_rejected_invite_witness :
  convert Scenario.env "expired" = Raise (BadArgument "This invite is not valid.")
  /\ _add_data Scenario.env false "GUILD_INVITE" "expired" (Some "spam") Scenario.st
     = (Raise (BadArgument "This invite is not valid."),
        mkState (filter_list_cache Scenario.st) [Convert "expired"]).
Proof.
  assert (H1 : convert Scenario.env "expired"
               = Raise (BadArgument "This invite is not valid.")) by reflexivity.
  split; [exact H1|].
  exact (add_data_rejected_invite Scenario.env false "expired" (Some "spam")
           Scenario.st _ H1).
Defined.

Lemma add_data_plain_witness :
  "DOMAIN_NAME" <> "GUILD_INVITE"
  /\ exists rest,
       new_calls Scenario.st
         (snd (_add_data Scenario.env true "DOMAIN_NAME" "new.example" None Scenario.st))
       = ApiPost "bot/filter-lists"
           {[ "allowed" := Py.VBool true;
              "type" := Py.VStr "DOMAIN_NAME";
              "content" := Py.VStr "new.example";
              "comment" := Py.VNone ]}
         :: rest
       /\ Forall (fun c => is_add_reaction c = true) rest.
Proof.
  assert (H1 : "DOMAIN_NAME" <> "GUILD_INVITE") by discriminate.
  split; [exact H1|].
  exact (add_data_plain Scenario.env true "DOMAIN_NAME" "new.example" None
           Scenario.st H1).
Defined.

Lemma add_data_payload_witness :
  In (ApiPost "bot/filter-lists" Scenario.dup_payload)
     (new_calls Scenario.st
        (snd (_add_data Scenario.env true "DOMAIN_NAME" "dup.example" None Scenario.st)))
  /\ "bot/filter-lists" = "bot/filter-lists"
  /\ dom Scenario.dup_payload = {[ "allowed"; "type"; "content"; "comment" ]}
  /\ Scenario.dup_payload !! "allowed" = Some (Py.VBool true)
  /\ Scenario.dup_payload !! "type" = Some (Py.VStr "DOMAIN_NAME")
  /\ length (List.filter is_api_post
               (new_calls Scenario.st
                  (snd (_add_data Scenario.env true "DOMAIN_NAME" "dup.example" None
                          Scenario.st))))
     = 1.
Proof.
  assert (H1 : In (ApiPost "bot/filter-lists" Scenario.dup_payload)
                 (new_calls Scenario.st
                    (snd (_add_data Scenario.env true "DOMAIN_NAME" "dup.example"
                            None Scenario.st))))
    by (vm_compute; left; reflexivity).
  split; [exact H1|].
  exact (add_data_payload Scenario.env true "DOMAIN_NAME" "dup.example" None
           Scenario.st _ _ H1).
Defined.

Lemma list_all_data_order_witness :
  Permutation (filter_list_cache Scenario.st !!! cache_key "DOMAIN_NAME" true)
              (filter_list_cache Outage.reordered !!! cache_key "DOMAIN_NAME" true)
  /\ new_calls Scenario.st
       (snd (_list_all_data Scenario.env true "DOMAIN_NAME" Scenario.st))
     = new_calls Outage.reordered
         (snd (_list_all_data Scenario.env true "DOMAIN_NAME" Outage.reordered)).
Proof.
  assert (H1 : Permutation
                 (filter_list_cache Scenario.st !!! cache_key "DOMAIN_NAME" true)
                 (filter_list_cache Outage.reordered !!! cache_key "DOMAIN_NAME" true)).
  { replace (filter_list_cache Scenario.st !!! cache_key "DOMAIN_NAME" true)
      with Scenario.domains by by_evaluation.
    replace (filter_list_cache Outage.reordered !!! cache_key "DOMAIN_NAME" true)
      with (reverse Scenario.domains) by by_evaluation.
    symmetry. apply reverse_Permutation. }
  split; [exact H1|].
  exact (list_all_data_order Scenario.env true "DOMAIN_NAME" Scenario.st
           Outage.reordered H1).
Defined.

(** The deny list survives a removal from the allow list, entry for entry. *)
Example allow_delete_keeps_deny_list :
  filter_list_cache (snd (allow_delete Scenario.env "DOMAIN_NAME" "a.example"
                            Outage.two_lists))
    !! "DOMAIN_NAME.False"
  = Some [Scenario.entry 9 "a.example" Py.VNone].
Proof. by_evaluation. Qed.

(** With the raw id of a server as argument the validator is not asked. *)
Example delete_data_raw_id :
  _delete_data
    (mkEnv (convert Scenario.env) (post Scenario.env) (delete Scenario.env)
           (fun argument => true) Scenario.append_item
           (add_reaction_answer Scenario.env) (paginate_answer Scenario.env)
           (send_embed_answer Scenario.env))
    true "GUILD_INVITE" "267624335836053506" Scenario.st
  = (Ok tt, Scenario.st).
Proof. by_evaluation. Qed.

(** Where the bot may not react, a removal that the store accepted still
    takes the entry out of the cache, and then raises what the reaction
    raised. *)
Example delete_data_reaction_refused :
  fst (_delete_data Outage.no_reactions true "DOMAIN_NAME" "a.example" Scenario.st)
  = Raise (OtherError "Forbidden")
  /\ filter_list_cache
       (snd (_delete_data Outage.no_reactions true "DOMAIN_NAME" "a.example"
               Scenario.st))
       !!! "DOMAIN_NAME.True"
     = [Scenario.entry 1 "b.example" Py.VNone;
        Scenario.entry 3 "c.example" (Py.VStr "");
        Scenario.entry 4 "b.example" (Py.VStr "again")].
Proof. split; by_evaluation. Qed.

(** Likewise an addition that the store accepted: the entry is in the cache
    when the reaction raises. *)
Example add_data_reaction_refused :
  fst (_add_data Outage.no_reactions true "DOMAIN_NAME" "new.example" None Scenario.st)
  = Raise (OtherError "Forbidden")
  /\ length (filter_list_cache
               (snd (_add_data Outage.no_reactions true "DOMAIN_NAME" "new.example"
                       None Scenario.st))
             !!! "DOMAIN_NAME.True")
     = 5.
Proof. split; by_evaluation. Qed.
